(** * Budget_Planner: the forecasting and budget-optimisation core

    A shallow embedding of the four model classes of the repository
    ([BudgetOptimizer], [SavingsPredictor], [ExpensePredictor],
    [IncomePredictor]) together with the properties their specification
    states about them.

    Numbers.  Python floats are idealised as exact rationals ([Q]); all
    statements are therefore about the arithmetic the code performs, not
    about binary rounding error.  Equality of amounts is [Qeq] ([==]) unless
    a statement says otherwise.

    Records.  The code receives lists of dictionaries and turns them into
    pandas frames.  A key that is absent from a dictionary is [None] here;
    a frame has a column exactly when some row carries the key, the cells of
    the other rows being NaN (skipped by pandas' [sum], [mean], [min] and
    [max], rejected by the regression's [fit]). *)

From Stdlib Require Import ZArith QArith Qround List String Ascii Bool Lia Lqa.
From Stdlib Require Import Sorted.
Import ListNotations.
Open Scope Q_scope.

(** ** Python primitives *)

Module Py.

(** [a < b] and [a <= b] on numbers, as booleans. *)
Definition ltb (a b : Q) : bool := negb (Qle_bool b a).
Definition leb (a b : Q) : bool := Qle_bool a b.

(** The builtin [max(a, b)]: the first argument unless the second is
    strictly greater. *)
Definition max (a b : Q) : Q := if ltb a b then b else a.

(** [max(1, n)] on integers. *)
Definition max1 (n : Z) : Z := if (1 <? n)%Z then n else 1%Z.

(** [sum(xs)]: left to right, starting from [0]. *)
Definition sum (xs : list Q) : Q := fold_left Qplus xs 0.

(** Rounding to the nearest integer, ties to even. *)
Definition round_half_even (x : Q) : Z :=
  let n := Qfloor x in
  match Qcompare (x - inject_Z n) (1 # 2) with
  | Lt => n
  | Gt => (n + 1)%Z
  | Eq => if Z.even n then n else (n + 1)%Z
  end.

(** [round(x, 2)]. *)
Definition round2 (x : Q) : Q := inject_Z (round_half_even (x * 100)) / 100.

(** Truthiness of a list (or of a dictionary). *)
Definition truthy {A : Type} (l : list A) : bool :=
  match l with [] => false | _ :: _ => true end.

(** Truthiness of an optional argument whose default is [None]. *)
Definition truthy_opt {A : Type} (o : option (list A)) : bool :=
  match o with Some l => truthy l | None => false end.

(** Dictionary keys: a type with a decidable equality ([==] on keys). *)
Class Key (K : Type) : Type := {
  key_eqb : K -> K -> bool;
  key_eqb_spec : forall a b : K, reflect (a = b) (key_eqb a b)
}.

#[global] Instance string_key : Key string :=
  {| key_eqb := String.eqb; key_eqb_spec := String.eqb_spec |}.

(** Dictionaries keep insertion order; assigning to an existing key
    replaces its value in place, assigning to a new key appends. *)
Definition dict (K V : Type) : Type := list (K * V).

Section Dict.
Context {K V : Type} `{Key K}.

Fixpoint get (k : K) (d : dict K V) : option V :=
  match d with
  | [] => None
  | (k', v) :: d' => if key_eqb k k' then Some v else get k d'
  end.

Definition mem (k : K) (d : dict K V) : bool :=
  match get k d with Some _ => true | None => false end.

Fixpoint set (k : K) (v : V) (d : dict K V) : dict K V :=
  match d with
  | [] => [(k, v)]
  | (k', v') :: d' =>
      if key_eqb k k' then (k', v) :: d' else (k', v') :: set k v d'
  end.

Definition keys (d : dict K V) : list K := map fst d.
Definition values (d : dict K V) : list V := map snd d.

(** [x in xs] on a list. *)
Definition contains (k : K) (ks : list K) : bool := existsb (key_eqb k) ks.
End Dict.

End Py.

(** ** Calendar dates *)

Module Date.

Record t : Type := mk { year : Z; month : Z; day : Z }.

(** What a [date] cell holds: a value [pd.to_datetime] accepts, or one it
    raises on. *)
Inductive field : Type :=
| Good (d : t)
| Bad.

Definition leb (a b : t) : bool :=
  if (year a <? year b)%Z then true
  else if (year b <? year a)%Z then false
  else if (month a <? month b)%Z then true
  else if (month b <? month a)%Z then false
  else (day a <=? day b)%Z.

(** Days since 1970-01-01 in the proleptic Gregorian calendar. *)
Definition days_from_civil (d : t) : Z :=
  let y := (if (month d <=? 2)%Z then year d - 1 else year d)%Z in
  let era := (y / 400)%Z in
  let yoe := (y - era * 400)%Z in
  let mp := ((month d + 9) mod 12)%Z in
  let doy := ((153 * mp + 2) / 5 + day d - 1)%Z in
  let doe := (yoe * 365 + yoe / 4 - yoe / 100 + doy)%Z in
  (era * 146097 + doe - 719468)%Z.

(** [dt.dayofweek]: Monday is 0, Sunday is 6. *)
Definition dayofweek (d : t) : Z := ((days_from_civil d + 3) mod 7)%Z.

(** [pd.to_datetime] on a column: NaN cells become NaT ([None]); one bad
    cell makes the whole conversion raise (outer [None]). *)
Fixpoint to_datetime (col : list (option field)) : option (list (option t)) :=
  match col with
  | [] => Some []
  | c :: col' =>
      match c, to_datetime col' with
      | Some Bad, _ => None
      | _, None => None
      | Some (Good d), Some ds => Some (Some d :: ds)
      | None, Some ds => Some (None :: ds)
      end
  end.

(** [Series.min()] and [Series.max()], skipping NaT. *)
Fixpoint min_from (m : t) (ds : list (option t)) : t :=
  match ds with
  | [] => m
  | None :: ds' => min_from m ds'
  | Some d :: ds' => min_from (if leb m d then m else d) ds'
  end.

Fixpoint max_from (m : t) (ds : list (option t)) : t :=
  match ds with
  | [] => m
  | None :: ds' => max_from m ds'
  | Some d :: ds' => max_from (if leb d m then m else d) ds'
  end.

Fixpoint first (ds : list (option t)) : option t :=
  match ds with
  | [] => None
  | Some d :: _ => Some d
  | None :: ds' => first ds'
  end.

Definition min (ds : list (option t)) : option t :=
  match first ds with Some d => Some (min_from d ds) | None => None end.

Definition max (ds : list (option t)) : option t :=
  match first ds with Some d => Some (max_from d ds) | None => None end.

End Date.

(** ** Input records *)

Record ExpenseRecord : Type := mkExpense {
  e_category : option string;
  e_amount : option Q;
  e_date : option Date.field
}.

Record IncomeRecord : Type := mkIncome {
  i_source : option string;
  i_amount : option Q;
  i_date : option Date.field
}.

Record SavingsRecord : Type := mkSavings {
  s_amount : option Q
}.

(** ** The pandas operations the models use *)

Module Frame.

Section Columns.
Context {R A : Type}.

(** ['key' in df.columns] *)
Definition has_column (f : R -> option A) (rows : list R) : bool :=
  existsb (fun r => match f r with Some _ => true | None => false end) rows.

(** The cells of a column that are not NaN. *)
Fixpoint dropna (f : R -> option A) (rows : list R) : list A :=
  match rows with
  | [] => []
  | r :: rows' =>
      match f r with
      | Some a => a :: dropna f rows'
      | None => dropna f rows'
      end
  end.
End Columns.

(** [df[key].sum()] *)
Definition sum {R : Type} (f : R -> option Q) (rows : list R) : Q :=
  Py.sum (dropna f rows).

(** [series.mean()] of a list of numbers. *)
Definition mean_of (xs : list Q) : Q :=
  Py.sum xs / inject_Z (Z.of_nat (List.length xs)).

(** [df[key].mean()] *)
Definition mean {R : Type} (f : R -> option Q) (rows : list R) : Q :=
  mean_of (dropna f rows).

(** Sorted insertion without duplicates: the key order of [groupby]. *)
Fixpoint insert_key {K : Type} (lt : K -> K -> bool) (eq : K -> K -> bool)
         (k : K) (ks : list K) : list K :=
  match ks with
  | [] => [k]
  | k' :: ks' =>
      if eq k k' then ks
      else if lt k k' then k :: ks
      else k' :: insert_key lt eq k ks'
  end.

Definition sorted_keys {K : Type} (lt eq : K -> K -> bool) (ks : list K) : list K :=
  fold_left (fun acc k => insert_key lt eq k acc) ks [].

(** [df.groupby(key)['amount'].sum()]: rows whose key is NaN are dropped,
    NaN amounts count for nothing, groups come in key order. *)
Definition groupby_sum {R K : Type} (lt eq : K -> K -> bool)
           (key : R -> option K) (amount : R -> option Q) (rows : list R)
  : list (K * Q) :=
  map (fun k =>
         (k, sum amount
               (filter (fun r => match key r with
                                 | Some k' => eq k k'
                                 | None => false
                                 end) rows)))
      (sorted_keys lt eq (dropna key rows)).

(** [series.unique().tolist()]: first occurrences, in order. *)
Fixpoint unique {K : Type} (eq : K -> K -> bool) (ks : list K) : list K :=
  match ks with
  | [] => []
  | k :: ks' => k :: filter (fun k' => negb (eq k k')) (unique eq ks')
  end.

End Frame.

(** ** BudgetOptimizer *)

Module BudgetOptimizer.

Definition ideal_allocations : Py.dict string Z :=
  [ ("housing"%string, 30%Z); ("utilities"%string, 10%Z);
    ("food"%string, 15%Z); ("transportation"%string, 10%Z);
    ("entertainment"%string, 5%Z); ("health"%string, 10%Z);
    ("education"%string, 5%Z); ("other"%string, 15%Z) ].

Definition minimum_allocations : Py.dict string Z :=
  [ ("housing"%string, 20%Z); ("utilities"%string, 5%Z);
    ("food"%string, 10%Z); ("transportation"%string, 5%Z);
    ("health"%string, 5%Z); ("education"%string, 2%Z);
    ("entertainment"%string, 2%Z); ("other"%string, 5%Z) ].

(** [(percentage / 100) * monthly_income] *)
Definition share (percentage monthly_income : Q) : Q :=
  (percentage / 100) * monthly_income.

Definition analyze_spending_patterns (expenses : list ExpenseRecord)
  : Py.dict string Q :=
  if negb (Py.truthy expenses) then []
  else if negb (Frame.has_column e_category expenses)
          || negb (Frame.has_column e_amount expenses) then []
  else
    let spending_by_category :=
      Frame.groupby_sum String.ltb String.eqb e_category e_amount expenses in
    let total_spending := Py.sum (Py.values spending_by_category) in
    map (fun '(category, amount) =>
           if Py.ltb 0 total_spending
           then (category, (amount / total_spending) * 100)
           else (category, 0))
        spending_by_category.

Definition month_year (r : IncomeRecord * option Date.t) : option (Z * Z) :=
  match snd r with
  | Some d => Some (Date.year d, Date.month d)
  | None => None
  end.

Definition ym_ltb (a b : Z * Z) : bool :=
  (fst a <? fst b)%Z || ((fst a =? fst b)%Z && (snd a <? snd b)%Z).

Definition ym_eqb (a b : Z * Z) : bool :=
  (fst a =? fst b)%Z && (snd a =? snd b)%Z.

Definition calculate_total_income (income : list IncomeRecord) : Q :=
  if negb (Py.truthy income) then 0
  else if negb (Frame.has_column i_amount income) then 0
  else if Frame.has_column i_date income then
    match Date.to_datetime (map i_date income) with
    | Some dates =>
        Frame.mean_of
          (map snd
             (Frame.groupby_sum ym_ltb ym_eqb month_year
                (fun r => i_amount (fst r)) (combine income dates)))
    | None =>
        Frame.sum i_amount income
        / inject_Z (Py.max1 (Z.of_nat (List.length income)))
    end
  else Frame.sum i_amount income.

(** Lines 110-120 of [optimize]: the income the allocation is computed
    from. *)
Definition resolve_monthly_income
           (expenses : list ExpenseRecord) (income : list IncomeRecord) : Q :=
  let monthly_income := calculate_total_income income in
  if Py.leb monthly_income 0 then
    let monthly_income :=
      if Py.truthy expenses && Frame.has_column e_amount expenses
      then Frame.sum e_amount expenses
      else monthly_income in
    if Py.leb monthly_income 0 then 50000 else monthly_income
  else monthly_income.

(** The seeding loop over [ideal_allocations]. *)
Definition seed (monthly_income : Q) : Py.dict string Q :=
  fold_left (fun b '(category, percentage) =>
               Py.set category (share (inject_Z percentage) monthly_income) b)
            ideal_allocations [].

(** One iteration of the loop over [spending_patterns]. *)
Definition adjust (monthly_income : Q) (b : Py.dict string Q) (kv : string * Q)
  : Py.dict string Q :=
  let '(category, percentage) := kv in
  match Py.get category b with
  | Some ideal =>
      let current_spending := share percentage monthly_income in
      if Py.ltb current_spending ideal
      then Py.set category current_spending b
      else b
  | None => b
  end.

(** One iteration of the loop over [minimum_allocations]. *)
Definition enforce_minimum (monthly_income : Q) (b : Py.dict string Q)
           (kv : string * Z) : Py.dict string Q :=
  let '(category, min_percentage) := kv in
  let min_amount := share (inject_Z min_percentage) monthly_income in
  match Py.get category b with
  | Some v => if Py.ltb v min_amount then Py.set category min_amount b else b
  | None => b
  end.

(** One iteration of the loop over [current_budget]. *)
Definition blend (b : Py.dict string Q) (kv : string * Q) : Py.dict string Q :=
  let '(category, amount) := kv in
  match Py.get category b with
  | Some v => Py.set category ((amount + v) / 2) b
  | None => b
  end.

(** The allocation before the final rounding loop. *)
Definition allocate (expenses : list ExpenseRecord)
           (income : list IncomeRecord)
           (current_budget : option (Py.dict string Q)) : Py.dict string Q :=
  let spending_patterns := analyze_spending_patterns expenses in
  let monthly_income := resolve_monthly_income expenses income in
  let b := seed monthly_income in
  let b := if Py.truthy spending_patterns
           then fold_left (adjust monthly_income) spending_patterns b
           else b in
  let b := fold_left (enforce_minimum monthly_income) minimum_allocations b in
  match current_budget with
  | Some cb => if Py.truthy cb then fold_left blend cb b else b
  | None => b
  end.

Definition optimize (expenses : list ExpenseRecord)
           (income : list IncomeRecord)
           (current_budget : option (Py.dict string Q)) : Py.dict string Q :=
  map (fun '(category, v) => (category, Py.round2 v))
      (allocate expenses income current_budget).

End BudgetOptimizer.

(** ** SavingsPredictor *)

Module SavingsPredictor.

(** The instance: its only field is [savings_rate]. *)
Record state : Type := mkState { savings_rate : Q }.

(** [__init__] *)
Definition init : state := {| savings_rate := 1 # 10 |}.

Record prediction : Type := mkPrediction {
  next_month : Q;
  six_month_forecast : list Q;
  savings_rate_pct : Q
}.

(** [(end.year - start.year) * 12 + end.month - start.month] *)
Definition month_difference (start_date end_date : Date.t) : Z :=
  ((Date.year end_date - Date.year start_date) * 12
   + Date.month end_date - Date.month start_date)%Z.

Definition calculate_monthly_savings (self : state)
           (income_data : list IncomeRecord)
           (expense_data : list ExpenseRecord) : Q * state :=
  if negb (Py.truthy income_data) || negb (Py.truthy expense_data)
  then (0, self)
  else if negb (Frame.has_column i_amount income_data)
          || negb (Frame.has_column e_amount expense_data)
  then (0, self)
  else
    let total_income := Frame.sum i_amount income_data in
    let total_expenses := Frame.sum e_amount expense_data in
    let total_savings := total_income - total_expenses in
    let self :=
      if Py.ltb 0 total_income
      then {| savings_rate := total_savings / total_income |}
      else self in
    let by_count :=
      total_savings
      / inject_Z (Py.max1 (Z.of_nat (List.length income_data))) in
    if Frame.has_column i_date income_data then
      match Date.to_datetime (map i_date income_data) with
      | Some dates =>
          match Date.min dates, Date.max dates with
          | Some start_date, Some end_date =>
              let months := Py.max1 (month_difference start_date end_date) in
              (total_savings / inject_Z months, self)
          | _, _ =>
              (* every date is NaT: the span is NaN and [max(1, NaN)] is 1 *)
              (total_savings / inject_Z 1, self)
          end
      | None => (by_count, self)
      end
    else (by_count, self).

Definition growth_rate : Q := 102 # 100.

(** The [for _ in range(6)] loop, with its two variables. *)
Fixpoint forecast_loop (n : nat) (forecast : list Q) (current_savings : Q)
  : list Q :=
  match n with
  | O => forecast
  | S n' =>
      forecast_loop n' (forecast ++ [current_savings])
                    (current_savings * growth_rate)
  end.

Definition predict (self : state) (savings_data : list SavingsRecord)
           (income_data : option (list IncomeRecord))
           (expense_data : option (list ExpenseRecord))
  : prediction * state :=
  let avg_monthly_savings :=
    if Py.truthy savings_data then
      if Frame.has_column s_amount savings_data
      then Frame.mean s_amount savings_data
      else 0
    else 0 in
  let '(next_month_savings, self) :=
    match income_data, expense_data with
    | Some inc, Some exp =>
        if Py.truthy inc && Py.truthy exp then
          let '(calculated_monthly_savings, self) :=
            calculate_monthly_savings self inc exp in
          if Py.ltb 0 avg_monthly_savings
             && Py.ltb 0 calculated_monthly_savings
          then ((avg_monthly_savings + calculated_monthly_savings) / 2, self)
          else (Py.max avg_monthly_savings calculated_monthly_savings, self)
        else (avg_monthly_savings, self)
    | _, _ => (avg_monthly_savings, self)
    end in
  ({| next_month := next_month_savings;
      six_month_forecast := forecast_loop 6 [] next_month_savings;
      savings_rate_pct := savings_rate self * 100 |},
   self).

End SavingsPredictor.

(** ** The estimators the predictors are built from *)

(** A categorical label: a string, or the NaN of a row that lacks the key
    while other rows have it. *)
Inductive label : Type :=
| Name (s : string)
| NaN.

Definition label_of (o : option string) : label :=
  match o with Some s => Name s | None => NaN end.

Definition label_eqb (a b : label) : bool :=
  match a, b with
  | Name s, Name s' => String.eqb s s'
  | NaN, NaN => true
  | _, _ => false
  end.

Lemma label_eqb_spec (a b : label) : reflect (a = b) (label_eqb a b).
Proof.
  destruct a as [s|], b as [s'|]; simpl; try (constructor; congruence).
  destruct (String.eqb_spec s s'); constructor; congruence.
Qed.

#[global] Instance label_key : Py.Key label :=
  {| Py.key_eqb := label_eqb; Py.key_eqb_spec := label_eqb_spec |}.

(** The order in which the encoder sorts its categories: strings first,
    NaN last. *)
Definition label_ltb (a b : label) : bool :=
  match a, b with
  | Name s, Name s' => String.ltb s s'
  | Name _, NaN => true
  | NaN, _ => false
  end.

(** [OneHotEncoder(sparse_output=False, handle_unknown='ignore')] on a
    single column. *)
Module OneHotEncoder.

(** The fitted attribute [categories_]. *)
Definition vocabulary : Type := list label.

Definition fit (column : list label) : vocabulary :=
  Frame.sorted_keys label_ltb label_eqb column.

(** One row of [transform]. *)
Definition transform (v : vocabulary) (l : label) : list Q :=
  map (fun c => if label_eqb l c then 1 else 0) v.

Definition fit_transform (column : list label) : vocabulary * list (list Q) :=
  let v := fit column in (v, map (transform v) column).

End OneHotEncoder.

(** [LinearRegression]: the least-squares solver is the library's; the
    predictors only rely on [fit] producing a fitted model from a complete
    design matrix and on [predict] evaluating it on one row. *)
Class Regression : Type := {
  fitted : Type;
  fit : list (list Q) -> list Q -> fitted;
  predict_row : fitted -> list Q -> Q
}.

(** Rows and targets with their NaN cells; [complete] is the check with
    which [fit] accepts its input. *)
Fixpoint complete {A : Type} (xs : list (option A)) : option (list A) :=
  match xs with
  | [] => Some []
  | None :: _ => None
  | Some x :: xs' =>
      match complete xs' with
      | Some l => Some (x :: l)
      | None => None
      end
  end.

(** The result of a method call on a predictor instance: it returns a value
    or raises, and leaves the instance in some state either way. *)
Inductive outcome (S A : Type) : Type :=
| Return (a : A) (s : S)
| Raise (s : S).
Arguments Return {S A} a s.
Arguments Raise {S A} s.

(** [now.month + 1 if now.month < 12 else 1] *)
Definition month_after (now_month : Z) : Z :=
  if (now_month <? 12)%Z then (now_month + 1)%Z else 1%Z.

(** ** ExpensePredictor *)

Module ExpensePredictor.
Section WithRegression.
Context {LR : Regression}.

(** The instance.  [model] and [encoder] are [None] until fitted;
    [categories] does not exist before the first successful [train]. *)
Record state : Type := mkState {
  model : option fitted;
  encoder : option OneHotEncoder.vocabulary;
  is_trained : bool;
  categories : option (list label)
}.

(** [__init__] *)
Definition init : state :=
  {| model := None; encoder := None; is_trained := false;
     categories := None |}.

Record prediction : Type := mkPrediction {
  total : Q;
  by_category : Py.dict label Q
}.

Definition all_categories : list label :=
  [ Name "housing"; Name "utilities"; Name "food"; Name "transportation";
    Name "entertainment"; Name "health"; Name "education"; Name "other" ].

(** The dictionary returned when there is nothing to forecast. *)
Definition zeros : prediction :=
  {| total := 0; by_category := map (fun c => (c, 0)) all_categories |}.

Definition category_column (expenses : list ExpenseRecord) : list label :=
  map (fun r => label_of (e_category r)) expenses.

(** A row of [np.hstack([X_cat, X_time])]; NaN when the date is NaT. *)
Definition feature_row (x_cat : list Q) (date : option Date.t)
  : option (list Q) :=
  match date with
  | Some d =>
      Some (x_cat ++ [inject_Z (Date.month d); inject_Z (Date.dayofweek d)])
  | None => None
  end.

Definition _prepare_data (self : state) (expenses : list ExpenseRecord)
  : outcome state (option (list (option (list Q)) * list (option Q))) :=
  if negb (Py.truthy expenses) then Return None self
  else if negb (Frame.has_column e_category expenses)
          || negb (Frame.has_column e_amount expenses)
          || negb (Frame.has_column e_date expenses)
  then Return None self
  else
    match Date.to_datetime (map e_date expenses) with
    | None => Raise self
    | Some dates =>
        let '(v, X_cat) :=
          OneHotEncoder.fit_transform (category_column expenses) in
        let self :=
          {| model := model self; encoder := Some v;
             is_trained := is_trained self;
             categories := categories self |} in
        let X := map (fun '(x, d) => feature_row x d) (combine X_cat dates) in
        let y := map e_amount expenses in
        Return (Some (X, y)) self
    end.

Definition untrained (self : state) : state :=
  {| model := model self; encoder := encoder self; is_trained := false;
     categories := categories self |}.

Definition train (self : state) (expenses : list ExpenseRecord)
  : outcome state bool :=
  match _prepare_data self expenses with
  | Raise s => Raise s
  | Return None s => Return false (untrained s)
  | Return (Some (X, y)) s =>
      if (List.length X <? 2)%nat then Return false (untrained s)
      else
        match complete X, complete y with
        | Some X', Some y' =>
            Return true
                   {| model := Some (fit X' y');
                      encoder := encoder s;
                      is_trained := true;
                      categories :=
                        Some (Frame.unique label_eqb
                                           (category_column expenses)) |}
        | _, _ => Raise s
        end
  end.

(** The category list of [predict]: those of the data, then the standard
    ones that are missing. *)
Definition prediction_categories (expenses : list ExpenseRecord)
  : list label :=
  if Frame.has_column e_category expenses then
    fold_left (fun cats cat =>
                 if Py.contains cat cats then cats else cats ++ [cat])
              all_categories
              (Frame.unique label_eqb (category_column expenses))
  else all_categories.

(** The inner loop over the seven days of the week. *)
Definition category_prediction (m : fitted) (cat_encoded : list Q)
           (next_month : Z) : Q :=
  fold_left (fun category_pred day =>
               let X_pred :=
                 cat_encoded ++ [inject_Z next_month; inject_Z day] in
               let pred := Py.max 0 (predict_row m X_pred) in
               category_pred + pred / 7)
            [0; 1; 2; 3; 4; 5; 6]%Z 0.

(** The part of [predict] that runs on a trained instance. *)
Definition forecast (m : fitted) (v : OneHotEncoder.vocabulary)
           (now_month : Z) (expenses : list ExpenseRecord) : prediction :=
  let next_month := month_after now_month in
  let predictions :=
    fold_left (fun predictions category =>
                 let cat_encoded := OneHotEncoder.transform v category in
                 Py.set category
                        (category_prediction m cat_encoded next_month)
                        predictions)
              (prediction_categories expenses) [] in
  {| total := Py.sum (Py.values predictions); by_category := predictions |}.

(** [if not self.is_trained: self.train(expenses)] *)
Definition ensure_trained (self : state) (expenses : list ExpenseRecord)
  : outcome state unit :=
  if is_trained self then Return tt self
  else
    match train self expenses with
    | Return _ s => Return tt s
    | Raise s => Raise s
    end.

(** [predict]; [now_month] is [datetime.now().month] at the call. *)
Definition predict (self : state) (now_month : Z)
           (expenses : list ExpenseRecord) : outcome state prediction :=
  if negb (Py.truthy expenses) || (List.length expenses <? 3)%nat
  then Return zeros self
  else
    match ensure_trained self expenses with
    | Raise s => Raise s
    | Return _ s =>
        if negb (is_trained s) then Return zeros s
        else
          match model s, encoder s with
          | Some m, Some v => Return (forecast m v now_month expenses) s
          | _, _ => Raise s (* an estimator that was never fitted *)
          end
    end.


(** *** Sequences of calls on one instance *)

Inductive call : Type :=
| Train (expenses : list ExpenseRecord)
| Predict (now_month : Z) (expenses : list ExpenseRecord).

(** The instance together with the data of the most recent training that
    succeeded on it, if any. *)
Record session : Type := mkSession {
  instance : state;
  trained_on : option (list ExpenseRecord)
}.


(** Whether [predict] trains, and on what. *)
Definition trains (self : state) (c : call) : option (list ExpenseRecord) :=
  match c with
  | Train expenses => Some expenses
  | Predict _ expenses =>
      if negb (Py.truthy expenses) || (List.length expenses <? 3)%nat
      then None
      else if is_trained self then None else Some expenses
  end.

(** One call; [None] when it raises. *)
Definition call_step (ss : session) (c : call) : option session :=
  let self := instance ss in
  let after :=
    match c with
    | Train expenses =>
        match train self expenses with
        | Return _ s => Some s
        | Raise _ => None
        end
    | Predict now_month expenses =>
        match predict self now_month expenses with
        | Return _ s => Some s
        | Raise _ => None
        end
    end in
  match after with
  | None => None
  | Some s =>
      Some {| instance := s;
              trained_on :=
                match trains self c with
                | Some expenses =>
                    if is_trained s then Some expenses else trained_on ss
                | None => trained_on ss
                end |}
  end.

Fixpoint run (ss : session) (cs : list call) : option session :=
  match cs with
  | [] => Some ss
  | c :: cs' =>
      match call_step ss c with
      | Some ss' => run ss' cs'
      | None => None
      end
  end.


End WithRegression.
End ExpensePredictor.

(** ** IncomePredictor *)

Module IncomePredictor.
Section WithRegression.
Context {LR : Regression}.

Record state : Type := mkState {
  model : option fitted;
  encoder : option OneHotEncoder.vocabulary;
  is_trained : bool;
  sources : option (list label)
}.

(** [__init__] *)
Definition init : state :=
  {| model := None; encoder := None; is_trained := false;
     sources := None |}.

Record prediction : Type := mkPrediction {
  total : Q;
  by_source : Py.dict label Q
}.

Definition default_sources : list label :=
  [ Name "salary"; Name "freelance"; Name "business"; Name "investments";
    Name "rental"; Name "gifts"; Name "other" ].

(** [{'total': 0, 'sources': {}}] *)
Definition nothing : prediction := {| total := 0; by_source := [] |}.

Definition source_column (income_data : list IncomeRecord) : list label :=
  map (fun r => label_of (i_source r)) income_data.

(** A row of [np.hstack([X_source, X_time])]; NaN when the date is NaT. *)
Definition feature_row (x_source : list Q) (date : option Date.t)
  : option (list Q) :=
  match date with
  | Some d => Some (x_source ++ [inject_Z (Date.month d)])
  | None => None
  end.

Definition _prepare_data (self : state) (income_data : list IncomeRecord)
  : outcome state (option (list (option (list Q)) * list (option Q))) :=
  if negb (Py.truthy income_data) then Return None self
  else if negb (Frame.has_column i_source income_data)
          || negb (Frame.has_column i_amount income_data)
          || negb (Frame.has_column i_date income_data)
  then Return None self
  else
    match Date.to_datetime (map i_date income_data) with
    | None => Raise self
    | Some dates =>
        let '(v, X_source) :=
          OneHotEncoder.fit_transform (source_column income_data) in
        let self :=
          {| model := model self; encoder := Some v;
             is_trained := is_trained self; sources := sources self |} in
        let X :=
          map (fun '(x, d) => feature_row x d) (combine X_source dates) in
        let y := map i_amount income_data in
        Return (Some (X, y)) self
    end.

Definition untrained (self : state) : state :=
  {| model := model self; encoder := encoder self; is_trained := false;
     sources := sources self |}.

Definition train (self : state) (income_data : list IncomeRecord)
  : outcome state bool :=
  match _prepare_data self income_data with
  | Raise s => Raise s
  | Return None s => Return false (untrained s)
  | Return (Some (X, y)) s =>
      if (List.length X <? 2)%nat then Return false (untrained s)
      else
        match complete X, complete y with
        | Some X', Some y' =>
            Return true
                   {| model := Some (fit X' y');
                      encoder := encoder s;
                      is_trained := true;
                      sources :=
                        Some (Frame.unique label_eqb
                                           (source_column income_data)) |}
        | _, _ => Raise s
        end
  end.

(** The source list of [predict]. *)
Definition prediction_sources (income_data : list IncomeRecord)
  : list label :=
  let sources :=
    if Frame.has_column i_source income_data
    then Frame.unique label_eqb (source_column income_data)
    else [] in
  if negb (Py.truthy sources) then default_sources else sources.

(** The loop over the sources. *)
Definition source_predictions (m : fitted) (v : OneHotEncoder.vocabulary)
           (now_month : Z) (income_data : list IncomeRecord)
  : Py.dict label Q :=
  let next_month := month_after now_month in
  fold_left (fun predictions source =>
               let source_encoded := OneHotEncoder.transform v source in
               let X_pred := source_encoded ++ [inject_Z next_month] in
               let pred := Py.max 0 (predict_row m X_pred) in
               Py.set source pred predictions)
            (prediction_sources income_data) [].

(** The part of [predict] that runs on a trained instance; it raises
    ([None]) when the fallback reads a record without an amount. *)
Definition forecast (m : fitted) (v : OneHotEncoder.vocabulary)
           (now_month : Z) (income_data : list IncomeRecord)
  : option prediction :=
  let predictions := source_predictions m v now_month income_data in
  let total_prediction := Py.sum (Py.values predictions) in
  if (2 <=? List.length income_data)%nat && Qeq_bool total_prediction 0
  then
    match complete (map i_amount income_data) with
    | Some amounts =>
        Some {| total := Py.sum amounts
                         / inject_Z (Z.of_nat (List.length amounts));
                by_source := predictions |}
    | None => None
    end
  else Some {| total := total_prediction; by_source := predictions |}.

(** [if not self.is_trained: self.train(income_data)] *)
Definition ensure_trained (self : state) (income_data : list IncomeRecord)
  : outcome state unit :=
  if is_trained self then Return tt self
  else
    match train self income_data with
    | Return _ s => Return tt s
    | Raise s => Raise s
    end.

(** [predict]; [now_month] is [datetime.now().month] at the call. *)
Definition predict (self : state) (now_month : Z)
           (income_data : list IncomeRecord) : outcome state prediction :=
  if negb (Py.truthy income_data) || (List.length income_data <? 2)%nat
  then Return nothing self
  else
    match ensure_trained self income_data with
    | Raise s => Raise s
    | Return _ s =>
        if negb (is_trained s) then Return nothing s
        else
          match model s, encoder s with
          | Some m, Some v =>
              match forecast m v now_month income_data with
              | Some p => Return p s
              | None => Raise s
              end
          | _, _ => Raise s (* an estimator that was never fitted *)
          end
    end.

End WithRegression.
End IncomePredictor.

(** ** A concrete regression for worked examples

    The least-squares line of the target against a single feature column.
    When every other column of the design matrix is constant over the rows
    (one category only, one weekday only), this is the ordinary least-squares
    solution the library computes. *)

Module Trend.

Record line : Type := mkLine { slope : Q; intercept : Q }.

Definition fit_line (feature : list Q -> Q) (X : list (list Q)) (y : list Q)
  : line :=
  let n := inject_Z (Z.of_nat (List.length X)) in
  let xs := map feature X in
  let mx := Py.sum xs / n in
  let my := Py.sum y / n in
  let sxx := Py.sum (map (fun x => (x - mx) * (x - mx)) xs) in
  let sxy :=
    Py.sum (map (fun '(x, t) => (x - mx) * (t - my)) (combine xs y)) in
  let k := if Qeq_bool sxx 0 then 0 else Qred (sxy / sxx) in
  {| slope := k; intercept := Qred (my - k * mx) |}.

Definition eval (feature : list Q -> Q) (l : line) (row : list Q) : Q :=
  intercept l + slope l * feature row.

(** The month is the last feature of an income row and the one before the
    weekday in an expense row. *)
Definition last_feature (row : list Q) : Q := last row 0.
Definition month_before_weekday (row : list Q) : Q :=
  last (removelast row) 0.

Definition on_income_month : Regression :=
  {| fitted := line;
     fit := fit_line last_feature;
     predict_row := eval last_feature |}.

Definition on_expense_month : Regression :=
  {| fitted := line;
     fit := fit_line month_before_weekday;
     predict_row := eval month_before_weekday |}.

End Trend.

(** ** Data of the worked examples *)

Module Sample.

Definition on (y m d : Z) : option Date.field :=
  Some (Date.Good (Date.mk y m d)).

(** Three expenses without dates, one in a category outside the budget
    table. *)
Definition undated_expenses : list ExpenseRecord :=
  [ mkExpense (Some "food"%string) (Some 100) None;
    mkExpense (Some "pets"%string) (Some 300) None;
    mkExpense (Some "housing"%string) (Some 100) None ].


(** Two salaries of 3000, in January and in March, and one expense. *)
Definition salaries_jan_mar : list IncomeRecord :=
  [ mkIncome (Some "salary"%string) (Some 3000) (on 2024 1 15);
    mkIncome (Some "salary"%string) (Some 3000) (on 2024 3 15) ].

Definition one_expense : list ExpenseRecord :=
  [ mkExpense (Some "food"%string) (Some 1000) (on 2024 2 1) ].

(** Three food expenses on Mondays of January, February and March. *)
Definition rising_food : list ExpenseRecord :=
  [ mkExpense (Some "food"%string) (Some 100) (on 2024 1 1);
    mkExpense (Some "food"%string) (Some 200) (on 2024 2 5);
    mkExpense (Some "food"%string) (Some 300) (on 2024 3 4) ].

(** A salary that drops from 100 in January to 10 in February. *)
Definition falling_salary : list IncomeRecord :=
  [ mkIncome (Some "salary"%string) (Some 100) (on 2024 1 15);
    mkIncome (Some "salary"%string) (Some 10) (on 2024 2 15) ].

(** Two refunds recorded as negative income. *)
Definition refunds : list IncomeRecord :=
  [ mkIncome (Some "other"%string) (Some (-10)) (on 2024 1 15);
    mkIncome (Some "other"%string) (Some (-30)) (on 2024 2 15) ].



(** The income predictor after a training on [falling_salary]. *)
Definition trained_on_falling_salary : @IncomePredictor.state Trend.on_income_month :=
  @IncomePredictor.mkState
    Trend.on_income_month
    (Some (Trend.mkLine (-90) 190)) (Some [Name "salary"]) true
    (Some [Name "salary"]).

(** The expense predictor after a training on [rising_food]. *)
Definition trained_on_rising_food : @ExpensePredictor.state Trend.on_expense_month :=
  @ExpensePredictor.mkState
    Trend.on_expense_month
    (Some (Trend.mkLine 100 0)) (Some [Name "food"]) true
    (Some [Name "food"]).

(** The income predictor after a training on [refunds]. *)
Definition trained_on_refunds : @IncomePredictor.state Trend.on_income_month :=
  @IncomePredictor.mkState
    Trend.on_income_month
    (Some (Trend.mkLine (-20) 10)) (Some [Name "other"]) true
    (Some [Name "other"]).

End Sample.

(** ** Statements of the specification, as predicates on the code *)

Module Stated.

(** The floor the specification states for a category: its minimum
    percentage of the income [optimize] resolved. *)
Definition floor (expenses : list ExpenseRecord)
           (income : list IncomeRecord) (min_percentage : Z) : Q :=
  BudgetOptimizer.share
    (inject_Z min_percentage)
    (BudgetOptimizer.resolve_monthly_income expenses income).

(** "Every category's allocation is at least its floor." *)
Definition floor_property (expenses : list ExpenseRecord)
           (income : list IncomeRecord)
           (current_budget : option (Py.dict string Q)) : Prop :=
  forall (category : string) (min_percentage : Z) (v : Q),
    In (category, min_percentage) BudgetOptimizer.minimum_allocations ->
    Py.get category (BudgetOptimizer.optimize expenses income current_budget)
    = Some v ->
    floor expenses income min_percentage <= v.

(** "The inclusive month span between the earliest and latest income
    date": both end months count. *)
Definition inclusive_month_span (start_date end_date : Date.t) : Z :=
  (SavingsPredictor.month_difference start_date end_date + 1)%Z.

(** "With parseable income dates, [calculate_monthly_savings] returns the
    total savings divided by the inclusive month span (at least 1)." *)
Definition savings_by_inclusive_span (income_data : list IncomeRecord)
           (expense_data : list ExpenseRecord) : Prop :=
  forall (self : SavingsPredictor.state) (dates : list (option Date.t))
         (start_date end_date : Date.t),
    Date.to_datetime (map i_date income_data) = Some dates ->
    Date.min dates = Some start_date ->
    Date.max dates = Some end_date ->
    fst (SavingsPredictor.calculate_monthly_savings
           self income_data expense_data)
    == (Frame.sum i_amount income_data - Frame.sum e_amount expense_data)
       / inject_Z (Py.max1 (inclusive_month_span start_date end_date)).

(** "A call to [predict] leaves every field of the instance unchanged." *)
Definition savings_predict_pure : Prop :=
  forall (self : SavingsPredictor.state) (savings_data : list SavingsRecord)
         (income_data : option (list IncomeRecord))
         (expense_data : option (list ExpenseRecord)),
    snd (SavingsPredictor.predict self savings_data income_data expense_data)
    = self.

(** When [calculate_monthly_savings] assigns [self.savings_rate]. *)
Definition rate_assigned (income_data : list IncomeRecord)
           (expense_data : list ExpenseRecord) : bool :=
  Py.truthy income_data && Py.truthy expense_data
  && Frame.has_column i_amount income_data
  && Frame.has_column e_amount expense_data
  && Py.ltb 0 (Frame.sum i_amount income_data).


(** "Every predicted value and the returned total are greater than or
    equal to zero", for the income predictor. *)
Definition income_prediction_nonnegative (LR : Regression) : Prop :=
  forall (self : IncomePredictor.state) (now_month : Z)
         (income_data : list IncomeRecord)
         (r : IncomePredictor.prediction) (s : IncomePredictor.state),
    IncomePredictor.predict self now_month income_data = Return r s ->
    0 <= IncomePredictor.total r
    /\ Forall (fun v => 0 <= v) (Py.values (IncomePredictor.by_source r)).

(** "Two calls on two fresh instances with the same input yield identical
    results": the result is a function of the input data alone, whatever
    the clock reads at either call. *)
Definition expense_prediction_of_data_alone (LR : Regression) : Prop :=
  forall (expenses : list ExpenseRecord) (now_month now_month' : Z)
         (r r' : ExpensePredictor.prediction)
         (s s' : ExpensePredictor.state),
    ExpensePredictor.predict ExpensePredictor.init now_month expenses
    = Return r s ->
    ExpensePredictor.predict ExpensePredictor.init now_month' expenses
    = Return r' s' ->
    r = r'.

End Stated.

(** ** Invariants and application code of the further properties *)


(** The categories of the expenses, in the order [groupby] yields them, and
    the amount spent in one of them. *)
Definition spending_categories (expenses : list ExpenseRecord) : list string :=
  Frame.sorted_keys String.ltb String.eqb (Frame.dropna e_category expenses).

Definition spent_in (expenses : list ExpenseRecord) (category : string) : Q :=
  Frame.sum e_amount
            (filter (fun r => match e_category r with
                              | Some c => String.eqb category c
                              | None => false
                              end) expenses).

(** The amount spent in all the expenses that carry a category. *)
Definition categorized_spending (expenses : list ExpenseRecord) : Q :=
  Frame.sum e_amount
            (filter (fun r => match e_category r with
                              | Some _ => true
                              | None => false
                              end) expenses).




(** The average of the recorded savings, as [SavingsPredictor.predict]
    computes it before looking at income and expenses. *)
Definition recorded_average (savings_data : list SavingsRecord) : Q :=
  if Py.truthy savings_data then
    if Frame.has_column s_amount savings_data
    then Frame.mean s_amount savings_data
    else 0
  else 0.

(** The parts of [app.py] that compute: the routes read the stored lists,
    call the models and hand numbers to the templates. *)
Module App.

(** [sum(item['amount'] for item in items)]: a record without the key
    raises [KeyError] ([None]). *)
Definition total_amount {R : Type} (amount : R -> option Q) (items : list R)
  : option Q :=
  match complete (map amount items) with
  | Some amounts => Some (Py.sum amounts)
  | None => None
  end.

(** [index]: the savings prediction of the home page and the total of its
    forecast. *)
Definition index_savings (savings_predictor : SavingsPredictor.state)
           (savings : list SavingsRecord)
  : SavingsPredictor.prediction * SavingsPredictor.state :=
  SavingsPredictor.predict savings_predictor savings None None.

Definition six_month_forecast_total
           (savings_prediction : SavingsPredictor.prediction) : Q :=
  Py.sum (SavingsPredictor.six_month_forecast savings_prediction).

(** [reports]: the savings rate of the report, 0 unless the total income
    is positive. *)
Definition report_savings_rate (income : list IncomeRecord)
           (expenses : list ExpenseRecord) : option Q :=
  match total_amount i_amount income, total_amount e_amount expenses with
  | Some total_income, Some total_expenses =>
      Some (if Py.ltb 0 total_income
            then ((total_income - total_expenses) / total_income) * 100
            else 0)
  | _, _ => None
  end.



End App.

(** The records [train] can fit on, and the design matrix it builds from
    them: one row per record, the indicator of the category followed by the
    month and the weekday of the date. *)
Definition good_date (r : ExpenseRecord) : option Date.t :=
  match e_date r with
  | Some (Date.Good d) => Some d
  | _ => None
  end.

Definition has_bad_date (expenses : list ExpenseRecord) : bool :=
  existsb (fun r => match e_date r with
                    | Some Date.Bad => true
                    | _ => false
                    end) expenses.

Definition fully_recorded (expenses : list ExpenseRecord) : bool :=
  forallb (fun r => match e_amount r, e_date r with
                    | Some _, Some _ => true
                    | _, _ => false
                    end) expenses.

Definition design_matrix (v : OneHotEncoder.vocabulary)
           (expenses : list ExpenseRecord) : list (list Q) :=
  Frame.dropna
    (fun r =>
       match good_date r with
       | Some d =>
           Some (OneHotEncoder.transform v (label_of (e_category r))
                 ++ [inject_Z (Date.month d); inject_Z (Date.dayofweek d)])
       | None => None
       end) expenses.

(** * Properties *)

(** ** Comparisons, sums and rounding *)

(** Division by the constants of the code, as a multiplication [lra] reads. *)
Ltac constant_divisions :=
  unfold Qdiv in *;
  change (/ 100) with (1 # 100) in *;
  change (/ 2) with (1 # 2) in *;
  change (/ 7) with (1 # 7) in *.

Lemma ltb_lt (a b : Q) : Py.ltb a b = true <-> a < b.
Proof.
  unfold Py.ltb. rewrite negb_true_iff. split; intro H.
  - apply Qnot_le_lt. intro L. apply Qle_bool_iff in L. congruence.
  - destruct (Qle_bool b a) eqn:E; [|reflexivity].
    apply Qle_bool_iff in E. exfalso. apply (Qlt_not_le _ _ H E).
Qed.

Lemma ltb_ge (a b : Q) : Py.ltb a b = false <-> b <= a.
Proof.
  unfold Py.ltb. rewrite negb_false_iff. apply Qle_bool_iff.
Qed.

Lemma leb_le (a b : Q) : Py.leb a b = true <-> a <= b.
Proof. apply Qle_bool_iff. Qed.

Lemma max_lower_bound (x : Q) : 0 <= Py.max 0 x.
Proof.
  unfold Py.max. destruct (Py.ltb 0 x) eqn:E.
  - apply ltb_lt in E. lra.
  - lra.
Qed.

Lemma sum_from (xs : list Q) (a : Q) :
  fold_left Qplus xs a == a + Py.sum xs.
Proof.
  unfold Py.sum. revert a.
  induction xs as [|x xs IH]; intro a; simpl.
  - lra.
  - rewrite (IH (a + x)), (IH (0 + x)). lra.
Qed.

Lemma sum_cons (x : Q) (xs : list Q) : Py.sum (x :: xs) == x + Py.sum xs.
Proof. unfold Py.sum at 1. simpl. rewrite sum_from. lra. Qed.

Lemma sum_app (xs ys : list Q) : Py.sum (xs ++ ys) == Py.sum xs + Py.sum ys.
Proof.
  induction xs as [|x xs IH]; simpl.
  - unfold Py.sum at 2. simpl. lra.
  - rewrite !sum_cons, IH. lra.
Qed.

Lemma sum_nonneg (xs : list Q) : Forall (fun x => 0 <= x) xs -> 0 <= Py.sum xs.
Proof.
  induction 1 as [|x xs Hx _ IH].
  - unfold Py.sum. simpl. lra.
  - rewrite sum_cons. lra.
Qed.







(** ** Dictionaries *)

Section DictFacts.
Context {K V : Type} `{Py.Key K}.

Lemma key_eqb_refl (k : K) : Py.key_eqb k k = true.
Proof. destruct (Py.key_eqb_spec k k); congruence. Qed.

Lemma key_eqb_neq (k k' : K) : k <> k' -> Py.key_eqb k k' = false.
Proof. intro N. destruct (Py.key_eqb_spec k k'); congruence. Qed.








(** Assigning keys that are all new and distinct appends them in order. *)
Lemma set_fresh (k : K) (v : V) (d : Py.dict K V) :
  ~ In k (Py.keys d) -> Py.set k v d = d ++ [(k, v)].
Proof.
  induction d as [|[k' v'] d IH]; simpl; intro N; [reflexivity|].
  rewrite key_eqb_neq by (intro E; apply N; left; now subst).
  f_equal. apply IH. intro I. apply N. now right.
Qed.

Lemma fold_set_distinct (f : K -> V) (ks : list K) (d : Py.dict K V) :
  NoDup ks -> (forall k, In k ks -> ~ In k (Py.keys d)) ->
  fold_left (fun acc k => Py.set k (f k) acc) ks d
  = d ++ map (fun k => (k, f k)) ks.
Proof.
  revert d. induction ks as [|k ks IH]; intros d ND Fresh; simpl.
  - now rewrite app_nil_r.
  - inversion ND as [|? ? Nk ND']; subst.
    rewrite set_fresh by (apply Fresh; now left).
    rewrite IH; [now rewrite <- app_assoc| assumption |].
    intros k' I. unfold Py.keys. rewrite map_app, in_app_iff. simpl.
    intros [I'|[E|[]]].
    + apply (Fresh k'); [now right | exact I'].
    + congruence.
Qed.
End DictFacts.

(** ** BudgetOptimizer *)










(** The final rounding alone can also take an allocation below its floor:
    an income of one cent gives education 5% of it, which rounds to 0. *)
Lemma floor_property_fails_by_rounding :
  ~ Stated.floor_property [] [mkIncome None (Some (1 # 100)) None] None.
Proof.
  intro P.
  specialize (P "education"%string 2%Z (Py.round2 (5 # 10000))).
  assert (L : Stated.floor [] [mkIncome None (Some (1 # 100)) None] 2
              <= Py.round2 (5 # 10000)).
  { apply P; [simpl; tauto | vm_compute; reflexivity]. }
  vm_compute in L. apply L. reflexivity.
Qed.






(** C9.  With no expenses, no income and no current budget the income
    resolves to the default 50000; the allocation is the seeded one, which
    no later step changes; the result has exactly the eight categories, each
    at its ideal percentage of 50000, and the amounts add up to 50000. *)
Theorem optimize_default_allocation :
  BudgetOptimizer.resolve_monthly_income [] [] = 50000
  /\ BudgetOptimizer.allocate [] [] None = BudgetOptimizer.seed 50000
  /\ Py.keys (BudgetOptimizer.optimize [] [] None)
     = [ "housing"; "utilities"; "food"; "transportation"; "entertainment";
         "health"; "education"; "other" ]%string
  /\ Forall2 Qeq
       (Py.values (BudgetOptimizer.optimize [] [] None))
       [ 15000; 5000; 7500; 5000; 2500; 5000; 2500; 7500 ]
  /\ Forall2 (fun '(c, v) '(c', p) =>
                c = c' /\ v == BudgetOptimizer.share (inject_Z p) 50000)
       (BudgetOptimizer.optimize [] [] None)
       BudgetOptimizer.ideal_allocations
  /\ Py.sum (Py.values (BudgetOptimizer.optimize [] [] None)) == 50000.
Proof.
  repeat split; try reflexivity.
  - vm_compute. repeat constructor.
  - vm_compute. repeat (constructor; [split; reflexivity|]). constructor.
Qed.

(** ** SavingsPredictor *)

Lemma forecast_loop_six (s : Q) :
  SavingsPredictor.forecast_loop 6 [] s
  = [ s;
      s * SavingsPredictor.growth_rate;
      s * SavingsPredictor.growth_rate * SavingsPredictor.growth_rate;
      s * SavingsPredictor.growth_rate * SavingsPredictor.growth_rate
        * SavingsPredictor.growth_rate;
      s * SavingsPredictor.growth_rate * SavingsPredictor.growth_rate
        * SavingsPredictor.growth_rate * SavingsPredictor.growth_rate;
      s * SavingsPredictor.growth_rate * SavingsPredictor.growth_rate
        * SavingsPredictor.growth_rate * SavingsPredictor.growth_rate
        * SavingsPredictor.growth_rate ].
Proof. reflexivity. Qed.

Lemma predict_forecast (self : SavingsPredictor.state)
      (savings_data : list SavingsRecord)
      (income_data : option (list IncomeRecord))
      (expense_data : option (list ExpenseRecord)) :
  SavingsPredictor.six_month_forecast
    (fst (SavingsPredictor.predict self savings_data income_data expense_data))
  = SavingsPredictor.forecast_loop
      6 []
      (SavingsPredictor.next_month
         (fst (SavingsPredictor.predict
                 self savings_data income_data expense_data))).
Proof.
  unfold SavingsPredictor.predict.
  destruct (match income_data with Some _ => _ | None => _ end) as [n s].
  reflexivity.
Qed.

(** C7.  The forecast has six entries: the predicted next-month savings [s]
    itself first, then each entry 1.02 times the one before, that is
    [s * 1.02 ^ k] at position [k]; [next_month] is [s]. *)
Theorem savings_forecast_compounds (self : SavingsPredictor.state)
        (savings_data : list SavingsRecord)
        (income_data : option (list IncomeRecord))
        (expense_data : option (list ExpenseRecord)) :
  let r := fst (SavingsPredictor.predict
                  self savings_data income_data expense_data) in
  let s := SavingsPredictor.next_month r in
  List.length (SavingsPredictor.six_month_forecast r) = 6%nat
  /\ nth_error (SavingsPredictor.six_month_forecast r) 0 = Some s
  /\ Forall2 Qeq
       (SavingsPredictor.six_month_forecast r)
       [ s; s * (102 # 100); s * (102 # 100) ^ 2; s * (102 # 100) ^ 3;
         s * (102 # 100) ^ 4; s * (102 # 100) ^ 5 ]
  /\ (forall k x y,
         nth_error (SavingsPredictor.six_month_forecast r) k = Some x ->
         nth_error (SavingsPredictor.six_month_forecast r) (S k) = Some y ->
         y = x * (102 # 100)).
Proof.
  intros r s. unfold r at 1 2 3 4 5. rewrite predict_forecast.
  fold r. fold s. rewrite forecast_loop_six.
  unfold SavingsPredictor.growth_rate.
  split; [reflexivity|]. split; [reflexivity|]. split.
  - repeat (constructor; [simpl; ring|]). constructor.
  - intros k x y Hx Hy.
    do 6 (destruct k as [|k]; [simpl in Hx, Hy; congruence|]).
    destruct k; discriminate.
Qed.

(** *** The instance state *)

Lemma calculate_monthly_savings_state (self : SavingsPredictor.state)
      (income_data : list IncomeRecord) (expense_data : list ExpenseRecord) :
  snd (SavingsPredictor.calculate_monthly_savings self income_data expense_data)
  = if Stated.rate_assigned income_data expense_data
    then {| SavingsPredictor.savings_rate :=
              (Frame.sum i_amount income_data - Frame.sum e_amount expense_data)
              / Frame.sum i_amount income_data |}
    else self.
Proof.
  unfold SavingsPredictor.calculate_monthly_savings, Stated.rate_assigned.
  destruct (Py.truthy income_data); simpl; [|reflexivity].
  destruct (Py.truthy expense_data); simpl; [|reflexivity].
  destruct (Frame.has_column i_amount income_data); simpl; [|reflexivity].
  destruct (Frame.has_column e_amount expense_data); simpl; [|reflexivity].
  destruct (Frame.has_column i_date income_data).
  - destruct (Date.to_datetime _) as [dates|]; [|reflexivity].
    destruct (Date.min dates), (Date.max dates); reflexivity.
  - reflexivity.
Qed.

Lemma calculate_monthly_savings_value (self self' : SavingsPredictor.state)
      (income_data : list IncomeRecord) (expense_data : list ExpenseRecord) :
  fst (SavingsPredictor.calculate_monthly_savings self income_data expense_data)
  = fst (SavingsPredictor.calculate_monthly_savings
           self' income_data expense_data).
Proof.
  unfold SavingsPredictor.calculate_monthly_savings.
  destruct (negb (Py.truthy income_data) || negb (Py.truthy expense_data));
    [reflexivity|].
  destruct (negb (Frame.has_column i_amount income_data)
            || negb (Frame.has_column e_amount expense_data)); [reflexivity|].
  destruct (Frame.has_column i_date income_data); [|reflexivity].
  destruct (Date.to_datetime _) as [dates|]; [|reflexivity].
  destruct (Date.min dates), (Date.max dates); reflexivity.
Qed.

Lemma predict_state (self : SavingsPredictor.state)
      (savings_data : list SavingsRecord)
      (income_data : option (list IncomeRecord))
      (expense_data : option (list ExpenseRecord)) :
  snd (SavingsPredictor.predict self savings_data income_data expense_data)
  = match income_data, expense_data with
    | Some inc, Some exp =>
        snd (SavingsPredictor.calculate_monthly_savings self inc exp)
    | _, _ => self
    end.
Proof.
  unfold SavingsPredictor.predict.
  destruct income_data as [inc|]; [|reflexivity].
  destruct expense_data as [exp|]; [|reflexivity].
  destruct (Py.truthy inc) eqn:Ti; simpl.
  - destruct (Py.truthy exp) eqn:Te; simpl.
    + destruct (SavingsPredictor.calculate_monthly_savings self inc exp)
        as [c s].
      destruct (Py.ltb 0 _ && Py.ltb 0 c); reflexivity.
    + unfold SavingsPredictor.calculate_monthly_savings.
      rewrite Ti, Te. reflexivity.
  - unfold SavingsPredictor.calculate_monthly_savings. rewrite Ti. reflexivity.
Qed.

Lemma predict_next_month_value (self self' : SavingsPredictor.state)
      (savings_data : list SavingsRecord)
      (income_data : option (list IncomeRecord))
      (expense_data : option (list ExpenseRecord)) :
  SavingsPredictor.next_month
    (fst (SavingsPredictor.predict self savings_data income_data expense_data))
  = SavingsPredictor.next_month
      (fst (SavingsPredictor.predict
              self' savings_data income_data expense_data)).
Proof.
  unfold SavingsPredictor.predict.
  destruct income_data as [inc|]; [|reflexivity].
  destruct expense_data as [exp|]; [|reflexivity].
  destruct (Py.truthy inc && Py.truthy exp); [|reflexivity].
  pose proof (calculate_monthly_savings_value self self' inc exp) as E.
  destruct (SavingsPredictor.calculate_monthly_savings self inc exp) as [c s].
  destruct (SavingsPredictor.calculate_monthly_savings self' inc exp)
    as [c' s'].
  simpl in E. subst c'.
  destruct (Py.ltb 0 _ && Py.ltb 0 c); reflexivity.
Qed.

Lemma predict_rate (self : SavingsPredictor.state)
      (savings_data : list SavingsRecord)
      (income_data : option (list IncomeRecord))
      (expense_data : option (list ExpenseRecord)) :
  SavingsPredictor.savings_rate_pct
    (fst (SavingsPredictor.predict self savings_data income_data expense_data))
  = SavingsPredictor.savings_rate
      (snd (SavingsPredictor.predict
              self savings_data income_data expense_data)) * 100.
Proof.
  unfold SavingsPredictor.predict.
  destruct (match income_data with Some _ => _ | None => _ end) as [n s].
  reflexivity.
Qed.

(** C2, as amended.  [calculate_monthly_savings] and [predict] do write to
    the instance: when both collections are non-empty, both have an amount
    column and the total income is positive, [savings_rate] becomes
    total savings over total income; in every other case the instance is
    left as it was.  The value of [calculate_monthly_savings], [next_month]
    and the forecast do not depend on the instance, while the returned
    savings rate is read from it after the update. *)
Theorem savings_predictor_effect (self : SavingsPredictor.state)
        (savings_data : list SavingsRecord)
        (income_data : option (list IncomeRecord))
        (expense_data : option (list ExpenseRecord)) :
  let after :=
    match income_data, expense_data with
    | Some inc, Some exp =>
        if Stated.rate_assigned inc exp
        then {| SavingsPredictor.savings_rate :=
                  (Frame.sum i_amount inc - Frame.sum e_amount exp)
                  / Frame.sum i_amount inc |}
        else self
    | _, _ => self
    end in
  let r := SavingsPredictor.predict
             self savings_data income_data expense_data in
  snd r = after
  /\ SavingsPredictor.savings_rate_pct (fst r)
     = SavingsPredictor.savings_rate after * 100
  /\ (forall inc exp,
         snd (SavingsPredictor.calculate_monthly_savings self inc exp)
         = if Stated.rate_assigned inc exp
           then {| SavingsPredictor.savings_rate :=
                     (Frame.sum i_amount inc - Frame.sum e_amount exp)
                     / Frame.sum i_amount inc |}
           else self)
  /\ (forall self' inc exp,
         fst (SavingsPredictor.calculate_monthly_savings self inc exp)
         = fst (SavingsPredictor.calculate_monthly_savings self' inc exp))
  /\ (forall self',
         let r' := SavingsPredictor.predict
                     self' savings_data income_data expense_data in
         SavingsPredictor.next_month (fst r)
         = SavingsPredictor.next_month (fst r')
         /\ SavingsPredictor.six_month_forecast (fst r)
            = SavingsPredictor.six_month_forecast (fst r')).
Proof.
  intros after r.
  assert (A : snd r = after).
  { unfold r, after. rewrite predict_state.
    destruct income_data as [inc|]; [|reflexivity].
    destruct expense_data as [exp|]; [|reflexivity].
    apply calculate_monthly_savings_state. }
  split; [exact A|]. split.
  { rewrite <- A. apply predict_rate. }
  split; [intros; apply calculate_monthly_savings_state|].
  split; [intros; apply calculate_monthly_savings_value|].
  intros self' r'. unfold r, r'.
  rewrite !predict_forecast.
  rewrite (predict_next_month_value self self'). split; reflexivity.
Qed.

(** C2, as stated, fails: one income of 100 and one expense of 50 turn the
    constructor's rate of 0.1 into 0.5, and a later call on the same
    instance, given no income at all, reports 50 where a fresh instance
    reports 10. *)
Lemma savings_predict_writes_rate :
  ~ Stated.savings_predict_pure
  /\ (let inc := [mkIncome None (Some 100) None] in
      let exp := [mkExpense None (Some 50) None] in
      let used :=
        snd (SavingsPredictor.predict
               SavingsPredictor.init [] (Some inc) (Some exp)) in
      SavingsPredictor.savings_rate used == 1 # 2
      /\ SavingsPredictor.savings_rate_pct
           (fst (SavingsPredictor.predict used [] None None)) == 50
      /\ SavingsPredictor.savings_rate_pct
           (fst (SavingsPredictor.predict SavingsPredictor.init [] None None))
         == 10).
Proof.
  split.
  - intro P.
    specialize (P SavingsPredictor.init []
                  (Some [mkIncome None (Some 100) None])
                  (Some [mkExpense None (Some 50) None])).
    vm_compute in P. discriminate P.
  - vm_compute. repeat split.
Qed.

(** *** Dates: the earliest and the latest of a column *)

Lemma date_leb_refl (a : Date.t) : Date.leb a a = true.
Proof.
  unfold Date.leb. rewrite !Z.ltb_irrefl. apply Z.leb_refl.
Qed.

Lemma date_leb_trans (a b c : Date.t) :
  Date.leb a b = true -> Date.leb b c = true -> Date.leb a c = true.
Proof.
  unfold Date.leb.
  repeat match goal with
         | |- context [(?x <? ?y)%Z] => destruct (Z.ltb_spec x y)
         end;
    rewrite ?Z.leb_le; try congruence; try lia.
Qed.

Lemma date_leb_total (a b : Date.t) :
  Date.leb a b = false -> Date.leb b a = true.
Proof.
  unfold Date.leb.
  repeat match goal with
         | |- context [(?x <? ?y)%Z] => destruct (Z.ltb_spec x y)
         end;
    rewrite ?Z.leb_le, ?Z.leb_gt; try congruence; try lia.
Qed.

Lemma min_from_lower (ds : list (option Date.t)) (m : Date.t) :
  Date.leb (Date.min_from m ds) m = true
  /\ forall d, In (Some d) ds -> Date.leb (Date.min_from m ds) d = true.
Proof.
  revert m. induction ds as [|[d0|] ds IH]; intro m; simpl.
  - split; [apply date_leb_refl | tauto].
  - destruct (IH (if Date.leb m d0 then m else d0)) as [Lm Ld].
    destruct (Date.leb m d0) eqn:E.
    + split; [exact Lm|]. intros d [[= <-]|I]; [|now apply Ld].
      exact (date_leb_trans _ _ _ Lm E).
    + apply date_leb_total in E. split.
      * exact (date_leb_trans _ _ _ Lm E).
      * intros d [[= <-]|I]; [exact Lm | now apply Ld].
  - destruct (IH m) as [Lm Ld]. split; [exact Lm|].
    intros d [I|I]; [discriminate | now apply Ld].
Qed.

Lemma max_from_upper (ds : list (option Date.t)) (m : Date.t) :
  Date.leb m (Date.max_from m ds) = true
  /\ forall d, In (Some d) ds -> Date.leb d (Date.max_from m ds) = true.
Proof.
  revert m. induction ds as [|[d0|] ds IH]; intro m; simpl.
  - split; [apply date_leb_refl | tauto].
  - destruct (IH (if Date.leb d0 m then m else d0)) as [Lm Ld].
    destruct (Date.leb d0 m) eqn:E.
    + split; [exact Lm|]. intros d [[= <-]|I]; [|now apply Ld].
      exact (date_leb_trans _ _ _ E Lm).
    + apply date_leb_total in E. split.
      * exact (date_leb_trans _ _ _ E Lm).
      * intros d [[= <-]|I]; [exact Lm | now apply Ld].
  - destruct (IH m) as [Lm Ld]. split; [exact Lm|].
    intros d [I|I]; [discriminate | now apply Ld].
Qed.

Lemma min_from_member (ds : list (option Date.t)) (m : Date.t) :
  Date.min_from m ds = m \/ In (Some (Date.min_from m ds)) ds.
Proof.
  revert m. induction ds as [|[d0|] ds IH]; intro m; simpl.
  - now left.
  - destruct (IH (if Date.leb m d0 then m else d0)) as [E|I]; [|tauto].
    rewrite E. destruct (Date.leb m d0); [now left | right; now left].
  - destruct (IH m); [now left | right; now right].
Qed.

Lemma max_from_member (ds : list (option Date.t)) (m : Date.t) :
  Date.max_from m ds = m \/ In (Some (Date.max_from m ds)) ds.
Proof.
  revert m. induction ds as [|[d0|] ds IH]; intro m; simpl.
  - now left.
  - destruct (IH (if Date.leb d0 m then m else d0)) as [E|I]; [|tauto].
    rewrite E. destruct (Date.leb d0 m); [now left | right; now left].
  - destruct (IH m); [now left | right; now right].
Qed.

Lemma first_member (ds : list (option Date.t)) (d : Date.t) :
  Date.first ds = Some d -> In (Some d) ds.
Proof.
  induction ds as [|[d0|] ds IH]; simpl; [discriminate| |].
  - intros [= ->]. now left.
  - intro F. right. now apply IH.
Qed.

(** [Date.min] is the earliest date of the column and [Date.max] the
    latest. *)
Lemma date_min_earliest (ds : list (option Date.t)) (m : Date.t) :
  Date.min ds = Some m ->
  In (Some m) ds /\ forall d, In (Some d) ds -> Date.leb m d = true.
Proof.
  unfold Date.min. destruct (Date.first ds) as [d0|] eqn:F; [|discriminate].
  intros [= <-]. split.
  - destruct (min_from_member ds d0) as [E|I]; [|exact I].
    rewrite E. now apply first_member.
  - apply min_from_lower.
Qed.

Lemma date_max_latest (ds : list (option Date.t)) (m : Date.t) :
  Date.max ds = Some m ->
  In (Some m) ds /\ forall d, In (Some d) ds -> Date.leb d m = true.
Proof.
  unfold Date.max. destruct (Date.first ds) as [d0|] eqn:F; [|discriminate].
  intros [= <-]. split.
  - destruct (max_from_member ds d0) as [E|I]; [|exact I].
    rewrite E. now apply first_member.
  - apply max_from_upper.
Qed.

(** A date column that converts has a first date, hence a minimum and a
    maximum. *)
Lemma to_datetime_first {R : Type} (f : R -> option Date.field)
      (rows : list R) (dates : list (option Date.t)) :
  Frame.has_column f rows = true ->
  Date.to_datetime (map f rows) = Some dates ->
  exists d, Date.first dates = Some d.
Proof.
  revert dates. induction rows as [|r rows IH]; intros dates; simpl.
  - discriminate.
  - destruct (f r) as [[d|]|]; simpl.
    + destruct (Date.to_datetime (map f rows)); [|discriminate].
      intros _ [= <-]. simpl. eauto.
    + discriminate.
    + destruct (Date.to_datetime (map f rows)) as [ds|]; [|discriminate].
      intros H [= <-]. simpl. now apply (IH ds).
Qed.

Lemma max1_length {A : Type} (l : list A) :
  Py.truthy l = true ->
  Py.max1 (Z.of_nat (List.length l)) = Z.of_nat (List.length l).
Proof.
  destruct l as [|x l]; [discriminate|]. intros _. unfold Py.max1.
  destruct (Z.ltb_spec 1 (Z.of_nat (List.length (x :: l)))); simpl in *; lia.
Qed.

(** *** The divisor of [calculate_monthly_savings] *)

Lemma max1_max (n : Z) : Py.max1 n = Z.max 1 n.
Proof. unfold Py.max1. destruct (Z.ltb_spec 1 n); lia. Qed.

(** C3, as amended.  For non-empty income and expense data that both have
    an amount column, [calculate_monthly_savings] returns the total savings
    divided by
    - [max(1, d)] where [d] is the month difference
      [(end.year - start.year) * 12 + end.month - start.month] between the
      earliest and the latest income date, which is one less than the
      inclusive span, when the income has a date column that converts;
    - the number of income records when the conversion of the date column
      fails, or when there is no date column. *)
Theorem monthly_savings_divisor (self : SavingsPredictor.state)
        (income_data : list IncomeRecord) (expense_data : list ExpenseRecord) :
  Py.truthy income_data = true ->
  Py.truthy expense_data = true ->
  Frame.has_column i_amount income_data = true ->
  Frame.has_column e_amount expense_data = true ->
  let total_savings :=
    Frame.sum i_amount income_data - Frame.sum e_amount expense_data in
  let v := fst (SavingsPredictor.calculate_monthly_savings
                  self income_data expense_data) in
  let count := Z.of_nat (List.length income_data) in
  (forall dates,
      Frame.has_column i_date income_data = true ->
      Date.to_datetime (map i_date income_data) = Some dates ->
      exists start_date end_date,
        Date.min dates = Some start_date
        /\ Date.max dates = Some end_date
        /\ (forall d, In (Some d) dates ->
                      Date.leb start_date d = true
                      /\ Date.leb d end_date = true)
        /\ v = total_savings
               / inject_Z
                   (Z.max 1 (Stated.inclusive_month_span start_date end_date
                             - 1)))
  /\ (Frame.has_column i_date income_data = true ->
      Date.to_datetime (map i_date income_data) = None ->
      v = total_savings / inject_Z count)
  /\ (Frame.has_column i_date income_data = false ->
      v = total_savings / inject_Z count)
  /\ (1 <= count)%Z.
Proof.
  intros Ti Te Ai Ae total_savings v count.
  unfold v, SavingsPredictor.calculate_monthly_savings.
  rewrite Ti, Te, Ai, Ae. simpl negb. simpl orb. cbv iota.
  rewrite (max1_length income_data Ti). fold total_savings. fold count.
  repeat split.
  - intros dates Hd Hc. rewrite Hd, Hc.
    destruct (to_datetime_first i_date income_data dates Hd Hc) as [d0 F].
    exists (Date.min_from d0 dates), (Date.max_from d0 dates).
    assert (Mi : Date.min dates = Some (Date.min_from d0 dates))
      by (unfold Date.min; now rewrite F).
    assert (Ma : Date.max dates = Some (Date.max_from d0 dates))
      by (unfold Date.max; now rewrite F).
    rewrite Mi, Ma. repeat split; trivial.
    + now apply (date_min_earliest dates).
    + now apply (date_max_latest dates).
    + simpl. rewrite max1_max. unfold Stated.inclusive_month_span.
      do 3 f_equal. lia.
  - intros Hd Hc. rewrite Hd, Hc. reflexivity.
  - intros Hd. rewrite Hd. reflexivity.
  - destruct income_data; [discriminate|]. unfold count. simpl List.length. lia.
Qed.

(** The worked example: salaries in January and in March give a month
    difference of 2, so 5000 of savings are divided by 2. *)
Lemma monthly_savings_divisor_witness :
  let v := fst (SavingsPredictor.calculate_monthly_savings
                  SavingsPredictor.init
                  Sample.salaries_jan_mar Sample.one_expense) in
  (forall dates,
      Frame.has_column i_date Sample.salaries_jan_mar = true ->
      Date.to_datetime (map i_date Sample.salaries_jan_mar) = Some dates ->
      exists start_date end_date,
        Date.min dates = Some start_date
        /\ Date.max dates = Some end_date
        /\ (forall d, In (Some d) dates ->
                      Date.leb start_date d = true
                      /\ Date.leb d end_date = true)
        /\ v = (Frame.sum i_amount Sample.salaries_jan_mar
                - Frame.sum e_amount Sample.one_expense)
               / inject_Z
                   (Z.max 1 (Stated.inclusive_month_span start_date end_date
                             - 1)))
  /\ (Frame.has_column i_date Sample.salaries_jan_mar = true ->
      Date.to_datetime (map i_date Sample.salaries_jan_mar) = None ->
      v = (Frame.sum i_amount Sample.salaries_jan_mar
           - Frame.sum e_amount Sample.one_expense)
          / inject_Z (Z.of_nat (List.length Sample.salaries_jan_mar)))
  /\ (Frame.has_column i_date Sample.salaries_jan_mar = false ->
      v = (Frame.sum i_amount Sample.salaries_jan_mar
           - Frame.sum e_amount Sample.one_expense)
          / inject_Z (Z.of_nat (List.length Sample.salaries_jan_mar)))
  /\ (1 <= Z.of_nat (List.length Sample.salaries_jan_mar))%Z.
Proof.
  apply (monthly_savings_divisor
           SavingsPredictor.init Sample.salaries_jan_mar Sample.one_expense);
    reflexivity.
Defined.

(** C3, as stated, fails: the inclusive span from January to March is three
    months, and the code divides the savings of 5000 by two. *)
Lemma savings_not_by_inclusive_span :
  ~ Stated.savings_by_inclusive_span Sample.salaries_jan_mar Sample.one_expense.
Proof.
  intro P.
  specialize (P SavingsPredictor.init
                [Some (Date.mk 2024 1 15); Some (Date.mk 2024 3 15)]
                (Date.mk 2024 1 15) (Date.mk 2024 3 15)
                eq_refl eq_refl eq_refl).
  vm_compute in P. discriminate P.
Qed.

(** ** The encoder *)

Lemma transform_length (v : OneHotEncoder.vocabulary) (l : label) :
  List.length (OneHotEncoder.transform v l) = List.length v.
Proof. unfold OneHotEncoder.transform. apply length_map. Qed.

(** [handle_unknown='ignore']: a label outside the vocabulary is encoded as
    the all-zero row. *)
Lemma transform_unknown (v : OneHotEncoder.vocabulary) (l : label) :
  ~ In l v -> OneHotEncoder.transform v l = repeat 0 (List.length v).
Proof.
  unfold OneHotEncoder.transform.
  induction v as [|c v IH]; simpl; intro N; [reflexivity|].
  destruct (label_eqb_spec l c) as [->|_]; [exfalso; apply N; now left|].
  f_equal. apply IH. intro I. apply N. now right.
Qed.

(** ** ExpensePredictor *)

Section ExpenseFacts.
Context {LR : Regression}.

Lemma prepare_data_encoder (self s : ExpensePredictor.state)
      (expenses : list ExpenseRecord)
      (X : list (option (list Q))) (y : list (option Q)) :
  ExpensePredictor._prepare_data self expenses = Return (Some (X, y)) s ->
  ExpensePredictor.encoder s
  = Some (OneHotEncoder.fit (ExpensePredictor.category_column expenses))
  /\ ExpensePredictor.is_trained s = ExpensePredictor.is_trained self
  /\ ExpensePredictor.model s = ExpensePredictor.model self
  /\ List.length X = List.length expenses.
Proof.
  unfold ExpensePredictor._prepare_data.
  destruct (negb (Py.truthy expenses)); [discriminate|].
  destruct (negb _ || negb _ || negb _); [discriminate|].
  destruct (Date.to_datetime (map e_date expenses)) as [dates|] eqn:D;
    [|discriminate].
  unfold OneHotEncoder.fit_transform. intros [= <- <- <-]. simpl.
  repeat split. rewrite length_map, length_combine, length_map.
  assert (L : List.length dates = List.length expenses).
  { clear -D. revert dates D. induction expenses as [|r rows IH];
      intros dates; simpl.
    - now intros [= <-].
    - destruct (e_date r) as [[d|]|];
        destruct (Date.to_datetime (map e_date rows)) as [ds|];
        try discriminate; intros [= <-]; simpl; f_equal; now apply IH. }
  unfold ExpensePredictor.category_column. rewrite length_map, L.
  apply Nat.min_id.
Qed.


(** A training that succeeds leaves the instance trained, with a fitted
    model and the vocabulary of the training data. *)
Lemma train_true (self s : ExpensePredictor.state)
      (expenses : list ExpenseRecord) :
  ExpensePredictor.train self expenses = Return true s ->
  ExpensePredictor.is_trained s = true
  /\ ExpensePredictor.encoder s
     = Some (OneHotEncoder.fit (ExpensePredictor.category_column expenses))
  /\ exists m, ExpensePredictor.model s = Some m.
Proof.
  unfold ExpensePredictor.train.
  destruct (ExpensePredictor._prepare_data self expenses)
    as [[[X y]|] s0|s0] eqn:P; try discriminate.
  destruct (List.length X <? 2)%nat; [discriminate|].
  destruct (complete X) as [X'|]; [|discriminate].
  destruct (complete y) as [y'|]; [|discriminate].
  intros [= <-]. simpl. apply prepare_data_encoder in P as (E & _).
  repeat split; [exact E | eauto].
Qed.

(** A training that fails leaves the instance untrained. *)
Lemma train_false (self s : ExpensePredictor.state)
      (expenses : list ExpenseRecord) :
  ExpensePredictor.train self expenses = Return false s ->
  ExpensePredictor.is_trained s = false.
Proof.
  unfold ExpensePredictor.train.
  destruct (ExpensePredictor._prepare_data self expenses)
    as [[[X y]|] s0|s0]; try discriminate.
  - destruct (List.length X <? 2)%nat; [now intros [= <-]|].
    destruct (complete X); [|discriminate].
    destruct (complete y); discriminate.
  - now intros [= <-].
Qed.


Lemma train_bool (self s : ExpensePredictor.state)
      (expenses : list ExpenseRecord) (b : bool) :
  ExpensePredictor.train self expenses = Return b s ->
  ExpensePredictor.is_trained s = b.
Proof.
  destruct b; intro T; [now apply train_true in T | now apply train_false in T].
Qed.
End ExpenseFacts.

Section DictValues.
Context {K : Type} `{Py.Key K}.

Lemma set_values_forall (P : Q -> Prop) (k : K) (v : Q) (d : Py.dict K Q) :
  P v -> Forall P (Py.values d) -> Forall P (Py.values (Py.set k v d)).
Proof.
  intros Pv. induction d as [|[k' v'] d IH]; simpl; intro F.
  - now repeat constructor.
  - inversion F as [|? ? Pv' F']; subst.
    destruct (Py.key_eqb k k'); simpl; constructor; auto.
Qed.

Lemma fold_set_values_forall (P : Q -> Prop) (f : K -> Q) (ks : list K)
      (d : Py.dict K Q) :
  (forall k, P (f k)) -> Forall P (Py.values d) ->
  Forall P (Py.values (fold_left (fun acc k => Py.set k (f k) acc) ks d)).
Proof.
  intro Pf. revert d. induction ks as [|k ks IH]; intros d F; simpl.
  - exact F.
  - apply IH. now apply set_values_forall.
Qed.
End DictValues.

Section ExpensePredictions.
Context {LR : Regression}.

(** The clamp: each of the seven daily predictions enters the average as
    [max(0, raw)]. *)
Lemma category_prediction_nonneg (m : fitted) (cat_encoded : list Q)
      (next_month : Z) :
  0 <= ExpensePredictor.category_prediction m cat_encoded next_month.
Proof.
  unfold ExpensePredictor.category_prediction. simpl fold_left.
  repeat match goal with
         | |- context [Py.max 0 ?x] =>
             generalize (max_lower_bound x); generalize (Py.max 0 x); intros
         end.
  constant_divisions. lra.
Qed.

Lemma forecast_nonneg (m : fitted) (v : OneHotEncoder.vocabulary)
      (now_month : Z) (expenses : list ExpenseRecord) :
  let r := ExpensePredictor.forecast m v now_month expenses in
  0 <= ExpensePredictor.total r
  /\ Forall (fun x => 0 <= x) (Py.values (ExpensePredictor.by_category r)).
Proof.
  simpl.
  assert (F : Forall (fun x => 0 <= x)
                (Py.values
                   (fold_left
                      (fun predictions category =>
                         Py.set category
                                (ExpensePredictor.category_prediction
                                   m (OneHotEncoder.transform v category)
                                   (month_after now_month))
                                predictions)
                      (ExpensePredictor.prediction_categories expenses) []))).
  { apply (fold_set_values_forall
             (fun x => 0 <= x)
             (fun category =>
                ExpensePredictor.category_prediction
                  m (OneHotEncoder.transform v category)
                  (month_after now_month))).
    - intro k. apply category_prediction_nonneg.
    - constructor. }
  split; [now apply sum_nonneg | exact F].
Qed.

Lemma zeros_shape :
  ExpensePredictor.zeros
  = {| ExpensePredictor.total := 0;
       ExpensePredictor.by_category :=
         [ (Name "housing", 0); (Name "utilities", 0); (Name "food", 0);
           (Name "transportation", 0); (Name "entertainment", 0);
           (Name "health", 0); (Name "education", 0); (Name "other", 0) ] |}.
Proof. reflexivity. Qed.

(** Every way [predict] can return. *)
Lemma predict_returns (self s : ExpensePredictor.state) (now_month : Z)
      (expenses : list ExpenseRecord) (r : ExpensePredictor.prediction) :
  ExpensePredictor.predict self now_month expenses = Return r s ->
  (r = ExpensePredictor.zeros /\ s = self
   /\ (List.length expenses < 3)%nat)
  \/ (r = ExpensePredictor.zeros /\ (3 <= List.length expenses)%nat
      /\ ExpensePredictor.is_trained self = false
      /\ ExpensePredictor.train self expenses = Return false s)
  \/ ((3 <= List.length expenses)%nat
      /\ ExpensePredictor.is_trained s = true
      /\ (s = self
          \/ (ExpensePredictor.is_trained self = false
              /\ ExpensePredictor.train self expenses = Return true s))
      /\ exists m v,
          ExpensePredictor.model s = Some m
          /\ ExpensePredictor.encoder s = Some v
          /\ r = ExpensePredictor.forecast m v now_month expenses).
Proof.
  unfold ExpensePredictor.predict.
  destruct (Nat.ltb_spec (List.length expenses) 3) as [L|L].
  - rewrite orb_true_r. intros [= <- <-]. now left.
  - rewrite orb_false_r.
    destruct expenses as [|r0 rows]; [simpl in L; lia|]. simpl negb.
    cbv iota. unfold ExpensePredictor.ensure_trained.
    destruct (ExpensePredictor.is_trained self) eqn:T.
    + rewrite T. simpl.
      destruct (ExpensePredictor.model self) as [m|] eqn:M; [|discriminate].
      destruct (ExpensePredictor.encoder self) as [v|] eqn:E; [|discriminate].
      intros [= <- <-]. right. right. repeat split; auto.
      exists m, v. auto.
    + destruct (ExpensePredictor.train self (r0 :: rows)) as [b s0|s0] eqn:Tr;
        [|discriminate].
      pose proof (train_bool _ _ _ _ Tr) as B. rewrite B.
      destruct b; simpl.
      * destruct (ExpensePredictor.model s0) as [m|] eqn:M; [|discriminate].
        destruct (ExpensePredictor.encoder s0) as [v|] eqn:E; [|discriminate].
        intros [= <- <-]. right. right. repeat split; auto.
        exists m, v. auto.
      * intros [= <- <-]. right. left. auto.
Qed.
End ExpensePredictions.

(** C5.  With fewer than three records, the empty list included, [predict]
    returns total 0 and the eight standard categories at 0, whatever the
    instance; it returns the same when the instance is untrained and the
    training it attempts fails. *)
Theorem expense_predict_zeros {LR : Regression}
        (self : ExpensePredictor.state) (now_month : Z)
        (expenses : list ExpenseRecord) :
  ((List.length expenses < 3)%nat ->
   ExpensePredictor.predict self now_month expenses
   = Return ExpensePredictor.zeros self)
  /\ (forall s,
         ExpensePredictor.is_trained self = false ->
         ExpensePredictor.train self expenses = Return false s ->
         exists s',
           ExpensePredictor.predict self now_month expenses
           = Return ExpensePredictor.zeros s')
  /\ ExpensePredictor.total ExpensePredictor.zeros = 0
  /\ ExpensePredictor.by_category ExpensePredictor.zeros
     = [ (Name "housing", 0); (Name "utilities", 0); (Name "food", 0);
         (Name "transportation", 0); (Name "entertainment", 0);
         (Name "health", 0); (Name "education", 0); (Name "other", 0) ].
Proof.
  assert (Few : (List.length expenses < 3)%nat ->
                ExpensePredictor.predict self now_month expenses
                = Return ExpensePredictor.zeros self).
  { intro L. unfold ExpensePredictor.predict.
    apply Nat.ltb_lt in L. rewrite L, orb_true_r. reflexivity. }
  split; [exact Few|]. split; [|split; reflexivity].
  intros s U Tr.
  destruct (Nat.ltb_spec (List.length expenses) 3) as [L|L];
    [exists self; now apply Few|].
  exists s. unfold ExpensePredictor.predict.
  apply Nat.ltb_ge in L. rewrite L, orb_false_r.
  destruct expenses as [|r0 rows]; [discriminate|]. simpl negb. cbv iota.
  unfold ExpensePredictor.ensure_trained. rewrite U, Tr.
  now rewrite (train_false _ _ _ Tr).
Qed.

(** The worked example: an empty list, and three records that carry no
    date, on which training fails. *)
Lemma expense_predict_zeros_witness :
  @ExpensePredictor.predict Trend.on_expense_month ExpensePredictor.init 5 []
  = Return ExpensePredictor.zeros ExpensePredictor.init
  /\ exists s',
      @ExpensePredictor.predict Trend.on_expense_month
                                ExpensePredictor.init 5 Sample.undated_expenses
      = Return ExpensePredictor.zeros s'.
Proof.
  split.
  - apply (proj1 (@expense_predict_zeros Trend.on_expense_month
                    ExpensePredictor.init 5 [])).
    simpl. lia.
  - apply (proj1 (proj2 (@expense_predict_zeros Trend.on_expense_month
                           ExpensePredictor.init 5 Sample.undated_expenses))
                 ExpensePredictor.init); reflexivity.
Defined.

(** *** The vocabulary across a sequence of calls *)

Section ExpenseSessions.
Context {LR : Regression}.




Lemma run_app (cs cs' : list ExpensePredictor.call)
      (ss : ExpensePredictor.session) :
  ExpensePredictor.run ss (cs ++ cs')
  = match ExpensePredictor.run ss cs with
    | Some ss' => ExpensePredictor.run ss' cs'
    | None => None
    end.
Proof.
  revert ss. induction cs as [|c cs IH]; intro ss; simpl; [reflexivity|].
  destruct (ExpensePredictor.call_step ss c); [apply IH | reflexivity].
Qed.

End ExpenseSessions.




(** *** Determinism *)

Section ExpenseDeterminism.
Context {LR : Regression}.

(** What [train] returns, and the instance a successful training leaves,
    do not depend on the instance it started from. *)
Lemma train_outcome (self self' : ExpensePredictor.state)
      (expenses : list ExpenseRecord) :
  match ExpensePredictor.train self expenses,
        ExpensePredictor.train self' expenses with
  | Return true s, Return true s' => s = s'
  | Return false _, Return false _ => True
  | Raise _, Raise _ => True
  | _, _ => False
  end.
Proof.
  unfold ExpensePredictor.train, ExpensePredictor._prepare_data.
  destruct (negb (Py.truthy expenses)); [exact I|].
  destruct (negb _ || negb _ || negb _); [exact I|].
  destruct (Date.to_datetime (map e_date expenses)) as [dates|]; [|exact I].
  unfold OneHotEncoder.fit_transform.
  destruct (List.length _ <? 2)%nat; [exact I|].
  destruct (complete _) as [X'|]; [|exact I].
  destruct (complete _) as [y'|]; [|exact I].
  reflexivity.
Qed.

Lemma forecast_month (m : fitted) (v : OneHotEncoder.vocabulary)
      (now_month now_month' : Z) (expenses : list ExpenseRecord) :
  month_after now_month = month_after now_month' ->
  ExpensePredictor.forecast m v now_month expenses
  = ExpensePredictor.forecast m v now_month' expenses.
Proof.
  intro E. unfold ExpensePredictor.forecast. now rewrite E.
Qed.
End ExpenseDeterminism.

(** C10, as amended.  Two calls of [predict] with the same input on two
    untrained instances, freshly constructed ones in particular, return the
    same result provided the clock gives the same next month at both calls:
    the result is a function of the input data and of the month after the
    current one. *)
Theorem expense_predict_deterministic {LR : Regression}
        (self self' : ExpensePredictor.state) (now_month now_month' : Z)
        (expenses : list ExpenseRecord) :
  ExpensePredictor.is_trained self = false ->
  ExpensePredictor.is_trained self' = false ->
  month_after now_month = month_after now_month' ->
  match ExpensePredictor.predict self now_month expenses,
        ExpensePredictor.predict self' now_month' expenses with
  | Return r _, Return r' _ => r = r'
  | Raise _, Raise _ => True
  | _, _ => False
  end.
Proof.
  intros U U' M. unfold ExpensePredictor.predict.
  destruct (negb (Py.truthy expenses) || (List.length expenses <? 3)%nat);
    [reflexivity|].
  unfold ExpensePredictor.ensure_trained. rewrite U, U'.
  pose proof (train_outcome self self' expenses) as T.
  destruct (ExpensePredictor.train self expenses) as [b s|s] eqn:T1;
    destruct (ExpensePredictor.train self' expenses) as [b' s'|s'] eqn:T2;
    try destruct b; try destruct b'; try contradiction; try exact I.
  - subst s'. rewrite (train_bool _ _ _ _ T1). simpl.
    destruct (ExpensePredictor.model s) as [m|]; [|exact I].
    destruct (ExpensePredictor.encoder s) as [v|]; [|exact I].
    now apply forecast_month.
  - rewrite (train_bool _ _ _ _ T1), (train_bool _ _ _ _ T2). reflexivity.
Qed.

(** The worked example: two fresh instances, both asked in January. *)
Lemma expense_predict_deterministic_witness :
  match @ExpensePredictor.predict Trend.on_expense_month
          ExpensePredictor.init 1 Sample.rising_food,
        @ExpensePredictor.predict Trend.on_expense_month
          ExpensePredictor.init 1 Sample.rising_food with
  | Return r _, Return r' _ => r = r'
  | Raise _, Raise _ => True
  | _, _ => False
  end.
Proof.
  apply (@expense_predict_deterministic
           Trend.on_expense_month ExpensePredictor.init ExpensePredictor.init
           1 1 Sample.rising_food); reflexivity.
Defined.

(** C10, as stated, fails: the forecast is made for the month after the one
    the clock shows.  On three food expenses of 100, 200 and 300 in January,
    February and March the fitted line is 100 times the month, and a fresh
    instance asked in January forecasts 200 for each category where a fresh
    instance asked in February forecasts 300. *)
Lemma expense_prediction_depends_on_clock :
  ~ Stated.expense_prediction_of_data_alone Trend.on_expense_month.
Proof.
  intro P.
  assert (E1 : @ExpensePredictor.predict
                 Trend.on_expense_month ExpensePredictor.init 1
                 Sample.rising_food
               = Return (@ExpensePredictor.forecast
                           Trend.on_expense_month
                           (Trend.mkLine 100 0) [Name "food"] 1
                           Sample.rising_food)
                        Sample.trained_on_rising_food) by reflexivity.
  assert (E2 : @ExpensePredictor.predict
                 Trend.on_expense_month ExpensePredictor.init 2
                 Sample.rising_food
               = Return (@ExpensePredictor.forecast
                           Trend.on_expense_month
                           (Trend.mkLine 100 0) [Name "food"] 2
                           Sample.rising_food)
                        Sample.trained_on_rising_food) by reflexivity.
  pose proof (P _ _ _ _ _ _ _ E1 E2) as E.
  apply (f_equal (fun r => Py.get (Name "food")
                                  (ExpensePredictor.by_category r))) in E.
  vm_compute in E. discriminate E.
Qed.

(** ** IncomePredictor *)


Lemma complete_members {A : Type} (xs : list (option A)) (l : list A) :
  complete xs = Some l -> forall x, In x l -> In (Some x) xs.
Proof.
  revert l. induction xs as [|[x0|] xs IH]; intros l; simpl.
  - intros [= <-] x [].
  - destruct (complete xs) as [l'|]; [|discriminate].
    intros [= <-] x [->|I]; [now left | right; now apply (IH l')].
  - discriminate.
Qed.

Section IncomeFacts.
Context {LR : Regression}.

(** A training that succeeds leaves the instance trained and fitted, and
    has seen an amount in every record. *)
Lemma income_train_true (self s : IncomePredictor.state)
      (income_data : list IncomeRecord) :
  IncomePredictor.train self income_data = Return true s ->
  IncomePredictor.is_trained s = true
  /\ IncomePredictor.encoder s
     = Some (OneHotEncoder.fit (IncomePredictor.source_column income_data))
  /\ (exists m, IncomePredictor.model s = Some m)
  /\ exists amounts, complete (map i_amount income_data) = Some amounts.
Proof.
  unfold IncomePredictor.train, IncomePredictor._prepare_data.
  destruct (negb (Py.truthy income_data)); [discriminate|].
  destruct (negb _ || negb _ || negb _); [discriminate|].
  destruct (Date.to_datetime (map i_date income_data)) as [dates|];
    [|discriminate].
  unfold OneHotEncoder.fit_transform.
  destruct (List.length _ <? 2)%nat; [discriminate|].
  destruct (complete _) as [X'|]; [|discriminate].
  destruct (complete (map i_amount income_data)) as [y'|]; [|discriminate].
  intros [= <-]. simpl. repeat split; eauto.
Qed.

Lemma income_train_false (self s : IncomePredictor.state)
      (income_data : list IncomeRecord) :
  IncomePredictor.train self income_data = Return false s ->
  IncomePredictor.is_trained s = false.
Proof.
  unfold IncomePredictor.train.
  destruct (IncomePredictor._prepare_data self income_data)
    as [[[X y]|] s0|s0]; try discriminate.
  - destruct (List.length X <? 2)%nat; [now intros [= <-]|].
    destruct (complete X); [|discriminate].
    destruct (complete y); discriminate.
  - now intros [= <-].
Qed.

(** The clamp: every per-source prediction is [max(0, raw)]. *)
Lemma source_predictions_nonneg (m : fitted) (v : OneHotEncoder.vocabulary)
      (now_month : Z) (income_data : list IncomeRecord) :
  Forall (fun x => 0 <= x)
         (Py.values
            (IncomePredictor.source_predictions m v now_month income_data)).
Proof.
  unfold IncomePredictor.source_predictions.
  apply (fold_set_values_forall
           (fun x => 0 <= x)
           (fun source =>
              Py.max 0 (predict_row
                          m (OneHotEncoder.transform v source
                             ++ [inject_Z (month_after now_month)])))).
  - intro k. apply max_lower_bound.
  - constructor.
Qed.

Lemma mean_nonneg (amounts : list Q) :
  Forall (fun a => 0 <= a) amounts ->
  0 <= Py.sum amounts / inject_Z (Z.of_nat (List.length amounts)).
Proof.
  intro F. pose proof (sum_nonneg _ F) as S.
  unfold Qdiv. apply Qmult_le_0_compat; [exact S|].
  apply Qinv_le_0_compat. rewrite <- (Zle_Qle 0). lia.
Qed.

(** The two ways [forecast] computes the total. *)
Lemma income_forecast_cases (m : fitted) (v : OneHotEncoder.vocabulary)
      (now_month : Z) (income_data : list IncomeRecord)
      (p : IncomePredictor.prediction) :
  IncomePredictor.forecast m v now_month income_data = Some p ->
  let preds :=
    IncomePredictor.source_predictions m v now_month income_data in
  IncomePredictor.by_source p = preds
  /\ (IncomePredictor.total p = Py.sum (Py.values preds)
      \/ (Py.sum (Py.values preds) == 0
          /\ exists amounts,
              complete (map i_amount income_data) = Some amounts
              /\ IncomePredictor.total p
                 = Py.sum amounts
                   / inject_Z (Z.of_nat (List.length amounts)))).
Proof.
  intros Hp preds. unfold IncomePredictor.forecast in Hp. fold preds in Hp.
  destruct ((2 <=? List.length income_data)%nat
            && Qeq_bool (Py.sum (Py.values preds)) 0) eqn:C.
  - apply andb_true_iff in C as [_ Z0]. apply Qeq_bool_iff in Z0.
    destruct (complete (map i_amount income_data)) as [amounts|] eqn:A;
      [|discriminate].
    injection Hp as <-. simpl. split; [reflexivity|]. right. eauto.
  - injection Hp as <-. simpl. auto.
Qed.

(** Every way [predict] can return. *)
Lemma income_predict_returns (self s : IncomePredictor.state)
      (now_month : Z) (income_data : list IncomeRecord)
      (r : IncomePredictor.prediction) :
  IncomePredictor.predict self now_month income_data = Return r s ->
  r = IncomePredictor.nothing
  \/ exists m v,
      IncomePredictor.forecast m v now_month income_data = Some r.
Proof.
  unfold IncomePredictor.predict.
  destruct (negb (Py.truthy income_data)
            || (List.length income_data <? 2)%nat);
    [intros [= <- <-]; now left|].
  destruct (IncomePredictor.ensure_trained self income_data) as [[] s0|s0];
    [|discriminate].
  destruct (negb (IncomePredictor.is_trained s0));
    [intros [= <- <-]; now left|].
  destruct (IncomePredictor.model s0) as [m|]; [|discriminate].
  destruct (IncomePredictor.encoder s0) as [v|]; [|discriminate].
  destruct (IncomePredictor.forecast m v now_month income_data) as [p|] eqn:F;
    [|discriminate].
  intros [= <- <-]. right. eauto.
Qed.
End IncomeFacts.



(** On that example the total and the breakdown do differ. *)
Lemma income_total_differs_from_breakdown :
  exists r,
    @IncomePredictor.predict Trend.on_income_month
                             IncomePredictor.init 2 Sample.falling_salary
    = Return r Sample.trained_on_falling_salary
    /\ IncomePredictor.total r == 55
    /\ Py.sum (Py.values (IncomePredictor.by_source r)) == 0.
Proof.
  exists {| IncomePredictor.total := 110 # 2;
            IncomePredictor.by_source := [(Name "salary", 0)] |}.
  split; [reflexivity|]. split; reflexivity.
Qed.

(** ** Non-negative predictions *)

(** C6, as amended.  Whenever [ExpensePredictor.predict] returns, the total
    and every per-category value are at least 0.  Whenever
    [IncomePredictor.predict] returns, every per-source value is at least 0,
    each being [max(0, raw)]; its total is at least 0 when no historical
    amount is negative, and can only be negative when the per-source
    predictions add up to zero and the total is the mean of the historical
    amounts. *)
Theorem predictions_nonnegative {LR : Regression} :
  (forall (self s : ExpensePredictor.state) (now_month : Z)
          (expenses : list ExpenseRecord) (r : ExpensePredictor.prediction),
      ExpensePredictor.predict self now_month expenses = Return r s ->
      0 <= ExpensePredictor.total r
      /\ Forall (fun x => 0 <= x)
                (Py.values (ExpensePredictor.by_category r)))
  /\ (forall (self s : IncomePredictor.state) (now_month : Z)
             (income_data : list IncomeRecord)
             (r : IncomePredictor.prediction),
         IncomePredictor.predict self now_month income_data = Return r s ->
         Forall (fun x => 0 <= x) (Py.values (IncomePredictor.by_source r))
         /\ ((forall a, In (Some a) (map i_amount income_data) -> 0 <= a) ->
             0 <= IncomePredictor.total r)
         /\ (IncomePredictor.total r < 0 ->
             Py.sum (Py.values (IncomePredictor.by_source r)) == 0
             /\ exists amounts,
                 complete (map i_amount income_data) = Some amounts
                 /\ IncomePredictor.total r
                    = Py.sum amounts
                      / inject_Z (Z.of_nat (List.length amounts))))
  /\ (forall x, x < 0 -> Py.max 0 x = 0).
Proof.
  split; [|split].
  - intros self s now_month expenses r Pr.
    apply predict_returns in Pr
      as [(-> & _)|[(-> & _)|(_ & _ & _ & m & v & _ & _ & ->)]].
    + split; [vm_compute; discriminate | repeat constructor; discriminate].
    + split; [vm_compute; discriminate | repeat constructor; discriminate].
    + apply forecast_nonneg.
  - intros self s now_month income_data r Pr.
    apply income_predict_returns in Pr as [->|(m & v & F)].
    + split; [constructor|]. split.
      * intros _. vm_compute. discriminate.
      * intro N. vm_compute in N. discriminate N.
    + pose proof (income_forecast_cases _ _ _ _ _ F) as (B & C).
      pose proof (source_predictions_nonneg m v now_month income_data) as NN.
      rewrite B. split; [exact NN|].
      destruct C as [C|(Z0 & amounts & A & C)]; rewrite C.
      * split; [intros _; now apply sum_nonneg|].
        intro N. exfalso. pose proof (sum_nonneg _ NN). lra.
      * split.
        -- intro Pos. apply mean_nonneg. apply Forall_forall.
           intros a Ia. apply Pos. exact (complete_members _ _ A a Ia).
        -- intros _. split; [exact Z0|]. eauto.
  - intros x N. unfold Py.max.
    destruct (Py.ltb 0 x) eqn:E; [|reflexivity].
    apply ltb_lt in E. exfalso. lra.
Qed.

(** C6, as stated, fails for the income total: two refunds of -10 and -30
    make every clamped prediction 0, and the fallback then returns their
    mean, -20. *)
Lemma income_total_can_be_negative :
  ~ Stated.income_prediction_nonnegative Trend.on_income_month.
Proof.
  intro P.
  assert (E : @IncomePredictor.predict
                Trend.on_income_month IncomePredictor.init 2 Sample.refunds
              = Return {| IncomePredictor.total := -40 # 2;
                          IncomePredictor.by_source := [(Name "other", 0)] |}
                       Sample.trained_on_refunds) by reflexivity.
  destruct (P _ _ _ _ _ E) as [N _].
  vm_compute in N. apply N. reflexivity.
Qed.

(** * Further properties of the code *)

(** ** BudgetOptimizer: the resolved income and the allocation *)

Lemma leb_gt (a b : Q) : Py.leb a b = false <-> b < a.
Proof.
  unfold Py.leb. split; intro H.
  - apply Qnot_le_lt. intro L. apply Qle_bool_iff in L. congruence.
  - destruct (Qle_bool a b) eqn:E; [|reflexivity].
    apply Qle_bool_iff in E. exfalso. apply (Qlt_not_le _ _ H E).
Qed.





























(** ** Grouping: the keys and the sums of [groupby] *)

Section SortedKeys.
Context {K : Type} (lt eq : K -> K -> bool).
Hypothesis eq_spec : forall a b, reflect (a = b) (eq a b).
Hypothesis lt_irrefl : forall a, lt a a = false.
Hypothesis lt_trans :
  forall a b c, lt a b = true -> lt b c = true -> lt a c = true.
Hypothesis lt_total : forall a b, lt a b = false -> a <> b -> lt b a = true.

Let before (a b : K) : Prop := lt a b = true.

Lemma insert_key_in (k x : K) (ks : list K) :
  In x (Frame.insert_key lt eq k ks) <-> x = k \/ In x ks.
Proof.
  induction ks as [|k' ks IH]; simpl.
  - intuition.
  - destruct (eq_spec k k') as [->|N].
    + simpl. intuition.
    + destruct (lt k k'); simpl; [intuition|]. rewrite IH. intuition.
Qed.

Lemma sorted_keys_from_in (ks acc : list K) (x : K) :
  In x (fold_left (fun acc k => Frame.insert_key lt eq k acc) ks acc)
  <-> In x ks \/ In x acc.
Proof.
  revert acc. induction ks as [|k ks IH]; intro acc; simpl.
  - intuition.
  - rewrite IH, insert_key_in. intuition.
Qed.

(** The keys of a grouping are exactly the keys that occur. *)
Lemma sorted_keys_in (ks : list K) (x : K) :
  In x (Frame.sorted_keys lt eq ks) <-> In x ks.
Proof.
  unfold Frame.sorted_keys. rewrite sorted_keys_from_in. simpl. intuition.
Qed.

Lemma insert_key_sorted (k : K) (ks : list K) :
  StronglySorted before ks ->
  StronglySorted before (Frame.insert_key lt eq k ks).
Proof.
  induction 1 as [|k' ks S IH F]; simpl.
  - repeat constructor.
  - destruct (eq_spec k k') as [->|N]; [now constructor|].
    destruct (lt k k') eqn:L.
    + constructor; [now constructor|]. constructor; [exact L|].
      apply Forall_forall. intros y Iy.
      rewrite Forall_forall in F. exact (lt_trans _ _ _ L (F y Iy)).
    + constructor; [exact IH|]. apply Forall_forall. intros y Iy.
      apply insert_key_in in Iy as [->|Iy].
      * apply lt_total; [exact L | exact N].
      * rewrite Forall_forall in F. now apply F.
Qed.

Lemma sorted_keys_sorted (ks : list K) :
  StronglySorted before (Frame.sorted_keys lt eq ks).
Proof.
  unfold Frame.sorted_keys.
  assert (G : forall acc, StronglySorted before acc ->
                          StronglySorted before
                            (fold_left
                               (fun acc k => Frame.insert_key lt eq k acc)
                               ks acc)).
  { induction ks as [|k ks IH]; intros acc S; simpl; [exact S|].
    apply IH. now apply insert_key_sorted. }
  apply G. constructor.
Qed.

Lemma sorted_distinct (ks : list K) : StronglySorted before ks -> NoDup ks.
Proof.
  induction 1 as [|k ks S IH F]; constructor; [|exact IH].
  intro I. rewrite Forall_forall in F. specialize (F k I).
  unfold before in F. rewrite lt_irrefl in F. discriminate.
Qed.

Lemma sorted_keys_distinct (ks : list K) : NoDup (Frame.sorted_keys lt eq ks).
Proof. apply sorted_distinct, sorted_keys_sorted. Qed.
End SortedKeys.

(** *** Sums over groups *)

Lemma sum_map_ext {A : Type} (f g : A -> Q) (xs : list A) :
  (forall x, In x xs -> f x == g x) ->
  Py.sum (map f xs) == Py.sum (map g xs).
Proof.
  induction xs as [|x xs IH]; intro E; simpl; [reflexivity|].
  assert (Ex : f x == g x) by (apply E; now left).
  assert (Exs : Py.sum (map f xs) == Py.sum (map g xs))
    by (apply IH; intros y Iy; apply E; now right).
  rewrite !sum_cons. lra.
Qed.

Lemma sum_map_plus {A : Type} (f g : A -> Q) (xs : list A) :
  Py.sum (map (fun x => f x + g x) xs)
  == Py.sum (map f xs) + Py.sum (map g xs).
Proof.
  induction xs as [|x xs IH]; simpl.
  - unfold Py.sum. simpl. lra.
  - rewrite !sum_cons, IH. lra.
Qed.

Lemma sum_map_zero {A : Type} (xs : list A) :
  Py.sum (map (fun _ => 0) xs) == 0.
Proof.
  induction xs as [|x xs IH]; simpl.
  - reflexivity.
  - rewrite sum_cons, IH. lra.
Qed.

Lemma sum_map_scale (k : Q) (xs : list Q) :
  Py.sum (map (fun x => x * k) xs) == Py.sum xs * k.
Proof.
  induction xs as [|x xs IH]; simpl.
  - unfold Py.sum. simpl. lra.
  - rewrite !sum_cons, IH. lra.
Qed.

Section GroupSums.
Context {R K : Type} (eq : K -> K -> bool).
Hypothesis eq_spec : forall a b, reflect (a = b) (eq a b).
Variables (key : R -> option K) (amount : R -> option Q).

(** The amount of a row, NaN counting for nothing. *)
Let cell (r : R) : Q := match amount r with Some a => a | None => 0 end.

Let in_group (k : K) (r : R) : bool :=
  match key r with Some k' => eq k k' | None => false end.

Let has_key (r : R) : bool :=
  match key r with Some _ => true | None => false end.

Lemma frame_sum_cons (r : R) (rows : list R) :
  Frame.sum amount (r :: rows) == cell r + Frame.sum amount rows.
Proof.
  unfold Frame.sum, cell. simpl. destruct (amount r) as [a|].
  - apply sum_cons.
  - lra.
Qed.

(** One more row adds its amount to the group of its key and to no other. *)
Lemma one_more_row (ks : list K) (r : R) :
  NoDup ks ->
  Py.sum (map (fun k => if in_group k r then cell r else 0) ks)
  == match key r with
     | Some k => if existsb (eq k) ks then cell r else 0
     | None => 0
     end.
Proof.
  unfold in_group. destruct (key r) as [k0|]; [|intros _; apply sum_map_zero].
  induction 1 as [|k ks N ND IH]; simpl; [reflexivity|].
  rewrite sum_cons, IH.
  destruct (eq_spec k k0) as [->|Nk].
  - destruct (eq_spec k0 k0) as [_|C]; [|congruence]. simpl.
    assert (E : existsb (eq k0) ks = false).
    { apply not_true_is_false. intro X. apply existsb_exists in X as (y & Iy & Ey).
      destruct (eq_spec k0 y); [subst; contradiction | discriminate]. }
    rewrite E. lra.
  - destruct (eq_spec k0 k) as [C|_]; [congruence|]. simpl. lra.
Qed.

(** The sums of the groups add up to the sum over the rows that have a
    key, provided the group keys are distinct and none is missing. *)
Lemma group_sums_total (ks : list K) (rows : list R) :
  NoDup ks ->
  (forall r k, In r rows -> key r = Some k -> In k ks) ->
  Py.sum (map (fun k => Frame.sum amount (filter (in_group k) rows)) ks)
  == Frame.sum amount (filter has_key rows).
Proof.
  intros ND. induction rows as [|r rows IH]; intro All.
  - simpl. unfold Frame.sum. simpl. apply sum_map_zero.
  - assert (Step : Py.sum (map (fun k =>
                                  Frame.sum amount
                                            (filter (in_group k) (r :: rows)))
                               ks)
                   == Py.sum (map (fun k =>
                                     Frame.sum amount
                                               (filter (in_group k) rows)
                                     + (if in_group k r then cell r else 0))
                                  ks)).
    { apply sum_map_ext. intros k _. simpl.
      destruct (in_group k r); [rewrite frame_sum_cons|]; lra. }
    rewrite Step, sum_map_plus, IH, (one_more_row ks r ND)
      by (intros r' k I; apply All; now right).
    simpl. unfold has_key at 2.
    destruct (key r) as [k0|] eqn:Kr.
    + assert (E : existsb (eq k0) ks = true).
      { apply existsb_exists. exists k0. split.
        - apply (All r k0); [now left | exact Kr].
        - now destruct (eq_spec k0 k0). }
      rewrite E, frame_sum_cons. fold cell. lra.
    + lra.
Qed.
End GroupSums.

(** *** The two key orders of the code *)

Lemma ascii_compare_refl (a : ascii) : Ascii.compare a a = Eq.
Proof. unfold Ascii.compare. apply N.compare_refl. Qed.

Lemma ascii_compare_lt_trans (a b c : ascii) :
  Ascii.compare a b = Lt -> Ascii.compare b c = Lt -> Ascii.compare a c = Lt.
Proof.
  unfold Ascii.compare. rewrite !N.compare_lt_iff. apply N.lt_trans.
Qed.

Lemma string_compare_refl (s : string) : String.compare s s = Eq.
Proof.
  induction s as [|a s IH]; simpl; [reflexivity|].
  now rewrite ascii_compare_refl.
Qed.

Lemma string_compare_lt_trans (s1 s2 s3 : string) :
  String.compare s1 s2 = Lt -> String.compare s2 s3 = Lt ->
  String.compare s1 s3 = Lt.
Proof.
  revert s2 s3. induction s1 as [|a s1 IH]; intros [|b s2] [|c s3]; simpl;
    try discriminate; try reflexivity.
  destruct (Ascii.compare a b) eqn:Cab; try discriminate;
    destruct (Ascii.compare b c) eqn:Cbc; try discriminate; intros L1 L2.
  - apply Ascii.compare_eq_iff in Cab, Cbc. subst.
    rewrite ascii_compare_refl. exact (IH _ _ L1 L2).
  - apply Ascii.compare_eq_iff in Cab. subst. now rewrite Cbc.
  - apply Ascii.compare_eq_iff in Cbc. subst. now rewrite Cab.
  - now rewrite (ascii_compare_lt_trans _ _ _ Cab Cbc).
Qed.

Lemma string_ltb_irrefl (s : string) : String.ltb s s = false.
Proof. unfold String.ltb. now rewrite string_compare_refl. Qed.

Lemma string_ltb_trans (a b c : string) :
  String.ltb a b = true -> String.ltb b c = true -> String.ltb a c = true.
Proof.
  unfold String.ltb.
  destruct (String.compare a b) eqn:Cab; try discriminate.
  destruct (String.compare b c) eqn:Cbc; try discriminate.
  now rewrite (string_compare_lt_trans _ _ _ Cab Cbc).
Qed.

Lemma string_ltb_total (a b : string) :
  String.ltb a b = false -> a <> b -> String.ltb b a = true.
Proof.
  unfold String.ltb. intros L N.
  rewrite String.compare_antisym.
  destruct (String.compare a b) eqn:C; simpl; try discriminate; try reflexivity.
  apply String.compare_eq_iff in C. contradiction.
Qed.





Lemma dropna_in {R A : Type} (f : R -> option A) (rows : list R) (a : A) :
  In a (Frame.dropna f rows) <-> exists r, In r rows /\ f r = Some a.
Proof.
  induction rows as [|r rows IH]; simpl.
  - split; [tauto | intros (r & [] & _)].
  - destruct (f r) as [a0|] eqn:E; simpl; rewrite IH; split.
    + intros [<-|(r' & I & F)]; eauto.
    + intros (r' & [<-|I] & F); [left; congruence | eauto].
    + intros (r' & I & F); eauto.
    + intros (r' & [<-|I] & F); [congruence | eauto].
Qed.


(** ** BudgetOptimizer: the spending patterns *)

Lemma spending_total (expenses : list ExpenseRecord) :
  Py.sum (map (spent_in expenses) (spending_categories expenses))
  == categorized_spending expenses.
Proof.
  unfold spent_in, spending_categories, categorized_spending.
  apply (group_sums_total String.eqb String.eqb_spec e_category e_amount).
  - apply (sorted_keys_distinct String.ltb String.eqb String.eqb_spec
             string_ltb_irrefl string_ltb_trans string_ltb_total).
  - intros r k I E.
    apply (sorted_keys_in String.ltb String.eqb String.eqb_spec).
    apply dropna_in. eauto.
Qed.

Lemma analyze_spending_patterns_table (expenses : list ExpenseRecord) :
  Frame.has_column e_category expenses = true ->
  Frame.has_column e_amount expenses = true ->
  let total :=
    Py.sum (map (spent_in expenses) (spending_categories expenses)) in
  BudgetOptimizer.analyze_spending_patterns expenses
  = map (fun c => (c, if Py.ltb 0 total
                      then spent_in expenses c / total * 100
                      else 0))
        (spending_categories expenses).
Proof.
  intros Hc Ha total. unfold BudgetOptimizer.analyze_spending_patterns.
  rewrite Hc, Ha.
  destruct expenses as [|r0 rows]; [discriminate|].
  simpl Py.truthy. simpl negb. simpl orb. cbv iota.
  unfold Frame.groupby_sum, Py.values. rewrite !map_map.
  apply map_ext. intro c.
  unfold total, spent_in, spending_categories. cbn [snd].
  now destruct (Py.ltb 0 _).
Qed.

Lemma get_key_table {V : Type} (g : string -> V) (ks : list string)
      (c : string) :
  Py.get c (map (fun k => (k, g k)) ks)
  = if existsb (String.eqb c) ks then Some (g c) else None.
Proof.
  induction ks as [|k ks IH]; simpl; [reflexivity|].
  destruct (String.eqb_spec c k) as [->|N]; [reflexivity | exact IH].
Qed.

(** X6.  [analyze_spending_patterns] reports each category that occurs in
    the expenses exactly once, in sorted order, with its share of the
    categorized spending in percent: the shares add up to 100 when that
    spending is positive, and are all 0 when it is not.  Expenses without
    a category are left out of both the categories and the total. *)
Theorem spending_patterns_are_shares (expenses : list ExpenseRecord) :
  Frame.has_column e_category expenses = true ->
  Frame.has_column e_amount expenses = true ->
  let patterns := BudgetOptimizer.analyze_spending_patterns expenses in
  let total := categorized_spending expenses in
  NoDup (Py.keys patterns)
  /\ StronglySorted (fun a b => String.ltb a b = true) (Py.keys patterns)
  /\ (forall c, In c (Py.keys patterns)
                <-> exists r, In r expenses /\ e_category r = Some c)
  /\ (0 < total ->
      Py.sum (Py.values patterns) == 100
      /\ forall c pct, Py.get c patterns = Some pct ->
                       pct == spent_in expenses c / total * 100)
  /\ (total <= 0 ->
      forall c pct, Py.get c patterns = Some pct -> pct = 0).
Proof.
  intros Hc Ha patterns total.
  pose proof (analyze_spending_patterns_table expenses Hc Ha) as T.
  pose proof (spending_total expenses) as S. fold total in S.
  set (t := Py.sum (map (spent_in expenses) (spending_categories expenses)))
    in *.
  simpl in T. fold patterns in T.
  assert (Ks : Py.keys patterns = spending_categories expenses).
  { rewrite T. unfold Py.keys. rewrite map_map. simpl. apply map_id. }
  split; [|split; [|split; [|split]]].
  - rewrite Ks.
    apply (sorted_keys_distinct String.ltb String.eqb String.eqb_spec
             string_ltb_irrefl string_ltb_trans string_ltb_total).
  - rewrite Ks.
    apply (sorted_keys_sorted String.ltb String.eqb String.eqb_spec
             string_ltb_trans string_ltb_total).
  - intro c. rewrite Ks. unfold spending_categories.
    rewrite (sorted_keys_in String.ltb String.eqb String.eqb_spec).
    apply dropna_in.
  - intro Pos. assert (Lt : Py.ltb 0 t = true) by (apply ltb_lt; lra).
    rewrite Lt in T. split.
    + rewrite T. unfold Py.values. rewrite map_map. simpl.
      rewrite (sum_map_ext _ (fun c => spent_in expenses c * (/ t * 100))).
      * rewrite <- (map_map (spent_in expenses) (fun x => x * (/ t * 100))).
        rewrite sum_map_scale. fold t. field. lra.
      * intros c _. unfold Qdiv. ring.
    + intros c pct G. rewrite T, get_key_table in G.
      destruct (existsb _ _); [|discriminate]. injection G as <-.
      now rewrite S.
  - intro NonPos. assert (Lt : Py.ltb 0 t = false) by (apply ltb_ge; lra).
    rewrite Lt in T. intros c pct G. rewrite T, get_key_table in G.
    destruct (existsb _ _); [|discriminate]. now injection G as <-.
Qed.

(** The worked example: food 100, pets 300 and housing 100. *)
Lemma spending_patterns_are_shares_witness :
  let patterns :=
    BudgetOptimizer.analyze_spending_patterns Sample.undated_expenses in
  let total := categorized_spending Sample.undated_expenses in
  NoDup (Py.keys patterns)
  /\ StronglySorted (fun a b => String.ltb a b = true) (Py.keys patterns)
  /\ (forall c, In c (Py.keys patterns)
                <-> exists r, In r Sample.undated_expenses
                              /\ e_category r = Some c)
  /\ (0 < total ->
      Py.sum (Py.values patterns) == 100
      /\ forall c pct, Py.get c patterns = Some pct ->
                       pct == spent_in Sample.undated_expenses c / total * 100)
  /\ (total <= 0 ->
      forall c pct, Py.get c patterns = Some pct -> pct = 0).
Proof.
  apply (spending_patterns_are_shares Sample.undated_expenses); reflexivity.
Defined.

(** ** BudgetOptimizer: the monthly income *)







(** ** SavingsPredictor: the two estimates and the forecast *)

Lemma py_max_bounds (a b : Q) :
  a <= Py.max a b /\ b <= Py.max a b /\ (Py.max a b = a \/ Py.max a b = b).
Proof.
  unfold Py.max. destruct (Py.ltb a b) eqn:L.
  - apply ltb_lt in L. repeat split; try lra. now right.
  - apply ltb_ge in L. repeat split; try lra. now left.
Qed.

Lemma predict_next_month (self : SavingsPredictor.state)
      (savings_data : list SavingsRecord)
      (income_data : option (list IncomeRecord))
      (expense_data : option (list ExpenseRecord)) :
  SavingsPredictor.next_month
    (fst (SavingsPredictor.predict self savings_data income_data expense_data))
  = let avg := recorded_average savings_data in
    match income_data, expense_data with
    | Some inc, Some exp =>
        if Py.truthy inc && Py.truthy exp then
          let calc :=
            fst (SavingsPredictor.calculate_monthly_savings self inc exp) in
          if Py.ltb 0 avg && Py.ltb 0 calc
          then (avg + calc) / 2
          else Py.max avg calc
        else avg
    | _, _ => avg
    end.
Proof.
  unfold SavingsPredictor.predict. fold (recorded_average savings_data).
  destruct income_data as [inc|]; [|reflexivity].
  destruct expense_data as [exp|]; [|reflexivity].
  destruct (Py.truthy inc && Py.truthy exp); [|reflexivity].
  destruct (SavingsPredictor.calculate_monthly_savings self inc exp) as [c s].
  simpl. now destruct (Py.ltb 0 _ && Py.ltb 0 c).
Qed.

(** X8.  [predict] combines the average of the recorded savings with the
    monthly savings computed from income and expenses: when both are
    strictly positive it returns their mean, otherwise the larger of the
    two, so the prediction always lies between the two estimates and is
    never below both; without income or expense data (absent or empty) it
    is the recorded average alone. *)
Theorem next_month_between_estimates (self : SavingsPredictor.state)
        (savings_data : list SavingsRecord)
        (income_data : option (list IncomeRecord))
        (expense_data : option (list ExpenseRecord)) :
  let avg := recorded_average savings_data in
  let next :=
    SavingsPredictor.next_month
      (fst (SavingsPredictor.predict
              self savings_data income_data expense_data)) in
  (Py.truthy_opt income_data && Py.truthy_opt expense_data = false ->
   next = avg)
  /\ (forall inc exp,
         income_data = Some inc -> expense_data = Some exp ->
         Py.truthy inc = true -> Py.truthy exp = true ->
         let calc :=
           fst (SavingsPredictor.calculate_monthly_savings self inc exp) in
         (0 < avg -> 0 < calc -> next = (avg + calc) / 2)
         /\ (avg <= 0 \/ calc <= 0 ->
             next = Py.max avg calc /\ avg <= next /\ calc <= next)
         /\ ((avg <= next /\ next <= calc) \/ (calc <= next /\ next <= avg))).
Proof.
  intros avg next. unfold next. rewrite predict_next_month. fold avg.
  split.
  - destruct income_data as [inc|]; [|reflexivity].
    destruct expense_data as [exp|]; [|reflexivity].
    simpl. now intros ->.
  - intros inc exp -> -> Ti Te. rewrite Ti, Te. simpl andb. cbv iota zeta.
    set (calc := fst (SavingsPredictor.calculate_monthly_savings self inc exp)).
    clearbody calc avg.
    pose proof (py_max_bounds avg calc) as (Ma & Mc & Mx).
    assert (Between : (avg <= Py.max avg calc /\ Py.max avg calc <= calc)
                      \/ (calc <= Py.max avg calc /\ Py.max avg calc <= avg)).
    { destruct Mx as [E|E]; rewrite E in *; [right | left]; split;
        try assumption; apply Qle_refl. }
    destruct (Py.ltb 0 avg) eqn:La; destruct (Py.ltb 0 calc) eqn:Lc;
      simpl andb; cbv iota;
      try apply ltb_lt in La; try apply ltb_ge in La;
      try apply ltb_lt in Lc; try apply ltb_ge in Lc.
    + split; [reflexivity|]. split; [intros [N|N]; exfalso; lra|].
      constant_divisions.
      destruct (Qlt_le_dec avg calc); [left | right]; split; lra.
    + split; [intros; exfalso; lra|]. split; [auto | exact Between].
    + split; [intros; exfalso; lra|]. split; [auto | exact Between].
    + split; [intros; exfalso; lra|]. split; [auto | exact Between].
Qed.

(** The worked example: recorded savings of 100 against computed monthly
    savings of 2500. *)
Lemma next_month_between_estimates_witness :
  let avg := recorded_average [mkSavings (Some 100)] in
  let next :=
    SavingsPredictor.next_month
      (fst (SavingsPredictor.predict
              SavingsPredictor.init [mkSavings (Some 100)]
              (Some Sample.salaries_jan_mar) (Some Sample.one_expense))) in
  let calc :=
    fst (SavingsPredictor.calculate_monthly_savings
           SavingsPredictor.init Sample.salaries_jan_mar Sample.one_expense) in
  (0 < avg -> 0 < calc -> next = (avg + calc) / 2)
  /\ (avg <= 0 \/ calc <= 0 ->
      next = Py.max avg calc /\ avg <= next /\ calc <= next)
  /\ ((avg <= next /\ next <= calc) \/ (calc <= next /\ next <= avg)).
Proof.
  apply (proj2 (next_month_between_estimates
                  SavingsPredictor.init [mkSavings (Some 100)]
                  (Some Sample.salaries_jan_mar) (Some Sample.one_expense))
               Sample.salaries_jan_mar Sample.one_expense);
    reflexivity.
Defined.

(** X9.  The home page calls [predict] with the savings records alone: the
    instance is left as it was, the prediction is the average of the
    recorded amounts, and the forecast total it displays is that average
    times 1 + 1.02 + ... + 1.02^5 = 6.3081209632; when the average is not
    negative no forecast entry is below the one before it. *)
Theorem index_forecast_total (self : SavingsPredictor.state)
        (savings : list SavingsRecord) :
  let r := App.index_savings self savings in
  let avg := recorded_average savings in
  snd r = self
  /\ SavingsPredictor.next_month (fst r) = avg
  /\ App.six_month_forecast_total (fst r)
     == avg * (63081209632 # 10000000000)
  /\ (0 <= avg ->
      forall k x y,
        nth_error (SavingsPredictor.six_month_forecast (fst r)) k = Some x ->
        nth_error (SavingsPredictor.six_month_forecast (fst r)) (S k) = Some y ->
        x <= y).
Proof.
  intros r avg.
  assert (N : SavingsPredictor.next_month (fst r) = avg).
  { unfold r, App.index_savings. now rewrite predict_next_month. }
  assert (F : SavingsPredictor.six_month_forecast (fst r)
              = SavingsPredictor.forecast_loop 6 [] avg).
  { unfold r, App.index_savings. rewrite predict_forecast.
    fold (App.index_savings self savings). fold r. now rewrite N. }
  split; [unfold r, App.index_savings; now rewrite predict_state|].
  split; [exact N|]. clearbody avg.
  unfold App.six_month_forecast_total. rewrite F, forecast_loop_six.
  unfold SavingsPredictor.growth_rate. split.
  - unfold Py.sum. simpl fold_left. ring.
  - intros Pos k x y Hx Hy.
    do 5 (destruct k as [|k];
          [simpl in Hx, Hy; injection Hx as <-; injection Hy as <-;
           nra|]).
    destruct k; simpl in Hy; discriminate.
Qed.

Lemma complete_dropna {R A : Type} (f : R -> option A) (rows : list R)
      (l : list A) :
  complete (map f rows) = Some l -> Frame.dropna f rows = l.
Proof.
  revert l. induction rows as [|r rows IH]; intros l; simpl.
  - now intros [= <-].
  - destruct (f r) as [a|]; [|discriminate].
    destruct (complete (map f rows)) as [l'|]; [|discriminate].
    intros [= <-]. f_equal. now apply IH.
Qed.

Lemma complete_has_column {R A : Type} (f : R -> option A) (rows : list R)
      (l : list A) :
  complete (map f rows) = Some l -> Py.truthy rows = true ->
  Frame.has_column f rows = true.
Proof.
  destruct rows as [|r rows]; [discriminate|]. simpl.
  destruct (f r); [reflexivity | discriminate].
Qed.

Lemma total_amount_sum {R : Type} (f : R -> option Q) (rows : list R)
      (t : Q) :
  App.total_amount f rows = Some t -> Frame.sum f rows = t.
Proof.
  unfold App.total_amount, Frame.sum.
  destruct (complete (map f rows)) as [l|] eqn:C; [|discriminate].
  intros [= <-]. now rewrite (complete_dropna _ _ _ C).
Qed.

(** X10.  When every stored record has an amount and both lists are
    non-empty, the savings rate the report page computes is the rate
    [SavingsPredictor.predict] returns for the same income and expenses as
    long as the total income is positive; when it is not, the report shows
    0 while the predictor keeps reporting the rate the instance had. *)
Theorem report_rate_matches_predictor (self : SavingsPredictor.state)
        (savings_data : list SavingsRecord)
        (income : list IncomeRecord) (expenses : list ExpenseRecord)
        (total_income total_expenses : Q) :
  App.total_amount i_amount income = Some total_income ->
  App.total_amount e_amount expenses = Some total_expenses ->
  Py.truthy income = true -> Py.truthy expenses = true ->
  let r := fst (SavingsPredictor.predict
                  self savings_data (Some income) (Some expenses)) in
  (0 < total_income ->
   App.report_savings_rate income expenses
   = Some (SavingsPredictor.savings_rate_pct r))
  /\ (total_income <= 0 ->
      App.report_savings_rate income expenses = Some 0
      /\ SavingsPredictor.savings_rate_pct r
         = SavingsPredictor.savings_rate self * 100).
Proof.
  intros Ti Te Ni Ne r.
  assert (Rate : SavingsPredictor.savings_rate_pct r
                 = SavingsPredictor.savings_rate
                     (if Py.ltb 0 total_income
                      then {| SavingsPredictor.savings_rate :=
                                (total_income - total_expenses)
                                / total_income |}
                      else self) * 100).
  { unfold r. rewrite predict_rate, predict_state,
      calculate_monthly_savings_state.
    unfold Stated.rate_assigned. rewrite Ni, Ne.
    unfold App.total_amount in Ti, Te.
    destruct (complete (map i_amount income)) as [li|] eqn:Ci; [|discriminate].
    destruct (complete (map e_amount expenses)) as [le|] eqn:Ce;
      [|discriminate].
    rewrite (complete_has_column _ _ _ Ci Ni), (complete_has_column _ _ _ Ce Ne).
    unfold Frame.sum.
    rewrite (complete_dropna _ _ _ Ci), (complete_dropna _ _ _ Ce).
    injection Ti as <-. injection Te as <-. reflexivity. }
  unfold App.report_savings_rate. rewrite Ti, Te, Rate. split.
  - intro Pos. apply ltb_lt in Pos. now rewrite Pos.
  - intro NonPos. apply ltb_ge in NonPos. now rewrite NonPos.
Qed.

(** The worked example: salaries of 6000 against an expense of 1000. *)
Lemma report_rate_matches_predictor_witness :
  let r := fst (SavingsPredictor.predict
                  SavingsPredictor.init []
                  (Some Sample.salaries_jan_mar) (Some Sample.one_expense)) in
  (0 < 0 + 3000 + 3000 ->
   App.report_savings_rate Sample.salaries_jan_mar Sample.one_expense
   = Some (SavingsPredictor.savings_rate_pct r))
  /\ (0 + 3000 + 3000 <= 0 ->
      App.report_savings_rate Sample.salaries_jan_mar Sample.one_expense
      = Some 0
      /\ SavingsPredictor.savings_rate_pct r
         = SavingsPredictor.savings_rate SavingsPredictor.init * 100).
Proof.
  apply (report_rate_matches_predictor
           SavingsPredictor.init [] Sample.salaries_jan_mar Sample.one_expense
           (0 + 3000 + 3000) (0 + 1000)); reflexivity.
Defined.


(** ** The predictors: categories, stale models and training *)

Section UniqueFacts.
Context {K : Type} `{Py.Key K}.

Lemma unique_in (l : list K) (x : K) :
  In x (Frame.unique Py.key_eqb l) <-> In x l.
Proof.
  induction l as [|k l IH]; simpl; [tauto|].
  rewrite filter_In, IH.
  destruct (Py.key_eqb_spec k x) as [->|N]; simpl; intuition congruence.
Qed.

Lemma unique_distinct (l : list K) : NoDup (Frame.unique Py.key_eqb l).
Proof.
  induction l as [|k l IH]; simpl; constructor.
  - rewrite filter_In. intros [_ E]. now rewrite key_eqb_refl in E.
  - now apply NoDup_filter.
Qed.

Lemma contains_in (x : K) (l : list K) :
  Py.contains x l = true <-> In x l.
Proof.
  unfold Py.contains. rewrite existsb_exists. split.
  - intros (y & I & E). destruct (Py.key_eqb_spec x y); congruence.
  - intro I. exists x. split; [exact I | apply key_eqb_refl].
Qed.

(** Appending the standard entries that are missing. *)
Lemma append_missing (extra l : list K) :
  let r := fold_left (fun acc x => if Py.contains x acc then acc
                                   else acc ++ [x]) extra l in
  (forall x, In x r <-> In x l \/ In x extra)
  /\ (NoDup l -> NoDup r)
  /\ exists tail, r = l ++ tail.
Proof.
  revert l. induction extra as [|e extra IH]; intro l; simpl.
  - split; [intuition|]. split; [auto|]. exists []. now rewrite app_nil_r.
  - destruct (Py.contains e l) eqn:C.
    + destruct (IH l) as (I & N & T). split; [|split; assumption].
      intro x. rewrite I. apply contains_in in C.
      intuition (subst; auto).
    + destruct (IH (l ++ [e])) as (I & N & (tail & T)).
      split; [|split].
      * intro x. rewrite I, in_app_iff. simpl. intuition.
      * intro ND. apply N. apply NoDup_app; [exact ND | repeat constructor; auto|].
        intros x Ix [<-|[]]. apply contains_in in Ix. congruence.
      * exists ([e] ++ tail). now rewrite T, <- app_assoc.
Qed.

Lemma get_table (g : K -> Q) (ks : list K) (c : K) :
  Py.get c (map (fun k => (k, g k)) ks)
  = if Py.contains c ks then Some (g c) else None.
Proof.
  induction ks as [|k ks IH]; simpl; [reflexivity|].
  destruct (Py.key_eqb_spec c k) as [->|N]; [reflexivity | exact IH].
Qed.
End UniqueFacts.

Section ExpenseCategories.
Context {LR : Regression}.

Lemma prediction_categories_facts (expenses : list ExpenseRecord) :
  let cats := ExpensePredictor.prediction_categories expenses in
  NoDup cats
  /\ (forall c, In c ExpensePredictor.all_categories -> In c cats)
  /\ (Frame.has_column e_category expenses = true ->
      forall r, In r expenses -> In (label_of (e_category r)) cats).
Proof.
  unfold ExpensePredictor.prediction_categories.
  destruct (Frame.has_column e_category expenses).
  - destruct (append_missing
                ExpensePredictor.all_categories
                (Frame.unique label_eqb
                              (ExpensePredictor.category_column expenses)))
      as (I & N & _).
    split; [|split].
    + apply N. exact (@unique_distinct label label_key _).
    + intros c Ic. apply I. now right.
    + intros _ r Ir. apply I. left. apply (@unique_in label label_key).
      exact (in_map (fun r0 => label_of (e_category r0)) _ _ Ir).
  - split; [|split; [auto | discriminate]].
    unfold ExpensePredictor.all_categories.
    repeat constructor; simpl; intuition discriminate.
Qed.

Lemma forecast_table (m : fitted) (v : OneHotEncoder.vocabulary)
      (now_month : Z) (expenses : list ExpenseRecord) :
  ExpensePredictor.by_category
    (ExpensePredictor.forecast m v now_month expenses)
  = map (fun c => (c, ExpensePredictor.category_prediction
                        m (OneHotEncoder.transform v c)
                        (month_after now_month)))
        (ExpensePredictor.prediction_categories expenses).
Proof.
  unfold ExpensePredictor.forecast. simpl.
  rewrite (fold_set_distinct
             (fun c => ExpensePredictor.category_prediction
                         m (OneHotEncoder.transform v c)
                         (month_after now_month))).
  - reflexivity.
  - apply prediction_categories_facts.
  - intros k _ [].
Qed.
End ExpenseCategories.

Lemma standard_category_forecast {LR : Regression}
      (m : fitted) (v : OneHotEncoder.vocabulary) (now_month : Z)
      (expenses : list ExpenseRecord) (c : label) :
  In c ExpensePredictor.all_categories ->
  Py.get c (ExpensePredictor.by_category
              (ExpensePredictor.forecast m v now_month expenses))
  = Some (ExpensePredictor.category_prediction
            m (OneHotEncoder.transform v c) (month_after now_month)).
Proof.
  intro I. rewrite forecast_table, (get_table (K := label)).
  destruct (prediction_categories_facts expenses) as (_ & Std & _).
  apply Std, (contains_in (K := label)) in I. now rewrite I.
Qed.




Lemma fit_vocabulary_in (column : list label) (c : label) :
  In c (OneHotEncoder.fit column) <-> In c column.
Proof.
  unfold OneHotEncoder.fit.
  apply (sorted_keys_in label_ltb label_eqb label_eqb_spec).
Qed.

(** X14.  The model cannot tell apart the categories it was not trained
    on: when an untrained instance is asked for a prediction, all the
    standard categories that do not occur in the supplied expenses receive
    one and the same amount. *)
Theorem unseen_categories_share_forecast {LR : Regression}
        (self s : ExpensePredictor.state) (now_month : Z)
        (expenses : list ExpenseRecord) (r : ExpensePredictor.prediction)
        (c1 c2 : label) :
  ExpensePredictor.is_trained self = false ->
  ExpensePredictor.predict self now_month expenses = Return r s ->
  In c1 ExpensePredictor.all_categories ->
  In c2 ExpensePredictor.all_categories ->
  ~ In c1 (ExpensePredictor.category_column expenses) ->
  ~ In c2 (ExpensePredictor.category_column expenses) ->
  exists x,
    Py.get c1 (ExpensePredictor.by_category r) = Some x
    /\ Py.get c2 (ExpensePredictor.by_category r) = Some x.
Proof.
  intros U Pr I1 I2 N1 N2.
  assert (Z0 : forall c, In c ExpensePredictor.all_categories ->
                         Py.get c (ExpensePredictor.by_category
                                     ExpensePredictor.zeros) = Some 0).
  { intros c Ic. unfold ExpensePredictor.zeros.
    cbn [ExpensePredictor.by_category].
    rewrite (get_table (K := label) (fun _ => 0)).
    apply (contains_in (K := label)) in Ic. now rewrite Ic. }
  apply predict_returns in Pr
    as [(-> & _)|[(-> & _)|(_ & T & Hs & m & v & M & E & ->)]];
    try (exists 0; split; now apply Z0).
  destruct Hs as [->|(_ & Tr)]; [congruence|].
  apply train_true in Tr as (_ & E' & _). rewrite E in E'.
  injection E' as ->.
  pose proof (standard_category_forecast
                m (OneHotEncoder.fit
                     (ExpensePredictor.category_column expenses))
                now_month expenses) as G.
  exists (ExpensePredictor.category_prediction
            m (OneHotEncoder.transform
                 (OneHotEncoder.fit (ExpensePredictor.category_column expenses))
                 c1)
            (month_after now_month)).
  split; [now apply G|]. rewrite (G c2 I2).
  rewrite !transform_unknown by (now rewrite fit_vocabulary_in).
  reflexivity.
Qed.

(** The worked example: housing and health do not occur among the three
    food expenses. *)
Lemma unseen_categories_share_forecast_witness :
  exists x,
    Py.get (Name "housing")
           (ExpensePredictor.by_category
              (@ExpensePredictor.forecast
                 Trend.on_expense_month (Trend.mkLine 100 0) [Name "food"] 1
                 Sample.rising_food)) = Some x
    /\ Py.get (Name "health")
              (ExpensePredictor.by_category
                 (@ExpensePredictor.forecast
                    Trend.on_expense_month (Trend.mkLine 100 0) [Name "food"]
                    1 Sample.rising_food)) = Some x.
Proof.
  apply (@unseen_categories_share_forecast
           Trend.on_expense_month ExpensePredictor.init
           Sample.trained_on_rising_food 1 Sample.rising_food
           (@ExpensePredictor.forecast
              Trend.on_expense_month (Trend.mkLine 100 0) [Name "food"] 1
              Sample.rising_food)
           (Name "housing") (Name "health")).
  - reflexivity.
  - reflexivity.
  - simpl. tauto.
  - simpl. tauto.
  - simpl. intuition discriminate.
  - simpl. intuition discriminate.
Defined.

(** *** What [train] does with each kind of input *)

Lemma complete_map_all {R A : Type} (f : R -> option A) (rows : list R) :
  (forall r, In r rows -> f r <> None) ->
  complete (map f rows) = Some (Frame.dropna f rows).
Proof.
  induction rows as [|r rows IH]; intro P; simpl; [reflexivity|].
  destruct (f r) as [a|] eqn:E;
    [|exfalso; apply (P r); [now left | exact E]].
  rewrite IH; [reflexivity|]. intros r' I. apply P. now right.
Qed.

Lemma complete_map_none {R A : Type} (f : R -> option A) (rows : list R)
      (r : R) :
  In r rows -> f r = None -> complete (map f rows) = None.
Proof.
  induction rows as [|r0 rows IH]; simpl; [tauto|].
  intros [->|I] E.
  - now rewrite E.
  - destruct (f r0); [|reflexivity]. now rewrite (IH I E).
Qed.

Lemma to_datetime_good (expenses : list ExpenseRecord) :
  has_bad_date expenses = false ->
  Date.to_datetime (map e_date expenses) = Some (map good_date expenses).
Proof.
  unfold has_bad_date, good_date.
  induction expenses as [|r rows IH]; simpl; [reflexivity|].
  destruct (e_date r) as [[d|]|]; simpl; try discriminate;
    intro B; now rewrite (IH B).
Qed.

Lemma to_datetime_bad (expenses : list ExpenseRecord) :
  has_bad_date expenses = true ->
  Date.to_datetime (map e_date expenses) = None.
Proof.
  unfold has_bad_date.
  induction expenses as [|r rows IH]; simpl; [discriminate|].
  destruct (e_date r) as [[d|]|]; simpl; try reflexivity;
    intro B; now rewrite (IH B).
Qed.

Section ExpenseTraining.
Context {LR : Regression}.

Lemma design_rows (v : OneHotEncoder.vocabulary)
      (expenses : list ExpenseRecord) :
  map (fun '(x, d) => ExpensePredictor.feature_row x d)
      (combine (map (OneHotEncoder.transform v)
                    (ExpensePredictor.category_column expenses))
               (map good_date expenses))
  = map (fun r =>
           match good_date r with
           | Some d =>
               Some (OneHotEncoder.transform v (label_of (e_category r))
                     ++ [inject_Z (Date.month d);
                         inject_Z (Date.dayofweek d)])
           | None => None
           end) expenses.
Proof.
  unfold ExpensePredictor.category_column.
  induction expenses as [|r rows IH]; simpl; [reflexivity|].
  now rewrite IH.
Qed.

Lemma not_fully_recorded (expenses : list ExpenseRecord) :
  has_bad_date expenses = false ->
  fully_recorded expenses = false ->
  exists r, In r expenses /\ (good_date r = None \/ e_amount r = None).
Proof.
  unfold has_bad_date, fully_recorded, good_date.
  induction expenses as [|r rows IH]; simpl; [discriminate|].
  intros B F. apply orb_false_iff in B as [B0 B].
  destruct (e_amount r) as [a|] eqn:Ea; [|exists r; auto].
  destruct (e_date r) as [[d|]|] eqn:Ed; try discriminate.
  - simpl in F. destruct (IH B F) as (r' & I & H). exists r'. auto.
  - exists r. rewrite Ed. auto.
Qed.

Lemma all_fully_recorded (expenses : list ExpenseRecord) :
  has_bad_date expenses = false ->
  fully_recorded expenses = true ->
  forall r, In r expenses -> good_date r <> None /\ e_amount r <> None.
Proof.
  unfold has_bad_date, fully_recorded, good_date.
  induction expenses as [|r rows IH]; simpl; [tauto|].
  intros B F. apply orb_false_iff in B as [B0 B].
  apply andb_true_iff in F as [F0 F].
  intros r' [<-|I]; [|now apply IH].
  destruct (e_amount r); [|discriminate].
  destruct (e_date r) as [[d|]|]; try discriminate. split; discriminate.
Qed.
End ExpenseTraining.

(** X15.  What [train] does, by input.  Without records, or when no record
    has a category, an amount or a date, it returns False and only marks
    the instance untrained.  A date that does not convert makes it raise
    before anything is changed.  Otherwise the encoder is refitted first;
    then a single record gives False, a record lacking its amount or date
    among two or more makes the regression raise, leaving the refitted
    encoder beside the old model and flag, and complete records give True
    with the model fitted on one row per record, the indicator of the
    category followed by the month and the weekday, against the amounts. *)
Theorem train_contract {LR : Regression} (self : ExpensePredictor.state)
        (expenses : list ExpenseRecord) :
  let v := OneHotEncoder.fit (ExpensePredictor.category_column expenses) in
  let refitted :=
    {| ExpensePredictor.model := ExpensePredictor.model self;
       ExpensePredictor.encoder := Some v;
       ExpensePredictor.is_trained := ExpensePredictor.is_trained self;
       ExpensePredictor.categories := ExpensePredictor.categories self |} in
  let columns :=
    Frame.has_column e_category expenses
    && Frame.has_column e_amount expenses
    && Frame.has_column e_date expenses in
  (columns = false ->
   ExpensePredictor.train self expenses
   = Return false (ExpensePredictor.untrained self))
  /\ (columns = true -> has_bad_date expenses = true ->
      ExpensePredictor.train self expenses = Raise self)
  /\ (columns = true -> has_bad_date expenses = false ->
      List.length expenses = 1%nat ->
      ExpensePredictor.train self expenses
      = Return false (ExpensePredictor.untrained refitted))
  /\ (columns = true -> has_bad_date expenses = false ->
      (2 <= List.length expenses)%nat -> fully_recorded expenses = false ->
      ExpensePredictor.train self expenses = Raise refitted)
  /\ (columns = true -> has_bad_date expenses = false ->
      (2 <= List.length expenses)%nat -> fully_recorded expenses = true ->
      ExpensePredictor.train self expenses
      = Return true
               {| ExpensePredictor.model :=
                    Some (fit (design_matrix v expenses)
                              (Frame.dropna e_amount expenses));
                  ExpensePredictor.encoder := Some v;
                  ExpensePredictor.is_trained := true;
                  ExpensePredictor.categories :=
                    Some (Frame.unique
                            label_eqb
                            (ExpensePredictor.category_column expenses)) |}).
Proof.
  intros v refitted columns.
  assert (Prep : columns = true -> has_bad_date expenses = false ->
                 ExpensePredictor._prepare_data self expenses
                 = Return
                     (Some (map (fun r =>
                                   match good_date r with
                                   | Some d =>
                                       Some (OneHotEncoder.transform
                                               v (label_of (e_category r))
                                             ++ [inject_Z (Date.month d);
                                                 inject_Z (Date.dayofweek d)])
                                   | None => None
                                   end) expenses,
                            map e_amount expenses))
                     refitted).
  { intros C B. unfold ExpensePredictor._prepare_data.
    unfold columns in C. apply andb_true_iff in C as [C Cd].
    apply andb_true_iff in C as [Cc Ca]. rewrite Cc, Ca, Cd.
    destruct expenses as [|r0 rows]; [discriminate|].
    simpl negb. simpl orb. cbv iota.
    rewrite (to_datetime_good _ B). unfold OneHotEncoder.fit_transform.
    fold v. rewrite design_rows. reflexivity. }
  split; [|split; [|split; [|split]]].
  - intro C. unfold ExpensePredictor.train, ExpensePredictor._prepare_data.
    destruct (negb (Py.truthy expenses)); [reflexivity|].
    unfold columns in C.
    destruct (Frame.has_column e_category expenses);
      destruct (Frame.has_column e_amount expenses);
      destruct (Frame.has_column e_date expenses);
      try discriminate; reflexivity.
  - intros C B. unfold ExpensePredictor.train, ExpensePredictor._prepare_data.
    unfold columns in C. apply andb_true_iff in C as [C Cd].
    apply andb_true_iff in C as [Cc Ca]. rewrite Cc, Ca, Cd.
    destruct expenses as [|r0 rows]; [discriminate|].
    simpl negb. simpl orb. cbv iota. now rewrite (to_datetime_bad _ B).
  - intros C B L. unfold ExpensePredictor.train. rewrite (Prep C B).
    rewrite length_map, L. reflexivity.
  - intros C B L F. unfold ExpensePredictor.train. rewrite (Prep C B).
    rewrite length_map. apply Nat.ltb_ge in L. rewrite L.
    destruct (not_fully_recorded expenses B F) as (r & I & [G|A]).
    + rewrite (complete_map_none _ expenses r I) by now rewrite G.
      reflexivity.
    + rewrite (complete_map_none e_amount expenses r I A).
      now destruct (complete _).
  - intros C B L F. unfold ExpensePredictor.train. rewrite (Prep C B).
    rewrite length_map. apply Nat.ltb_ge in L. rewrite L.
    pose proof (all_fully_recorded expenses B F) as All.
    rewrite complete_map_all, complete_map_all.
    + reflexivity.
    + intros r I. apply All, I.
    + intros r I. destruct (All r I) as [G _].
      destruct (good_date r); [discriminate | contradiction].
Qed.

(** *** IncomePredictor: where the sources come from *)

Section IncomeSources.
Context {LR : Regression}.

Lemma income_train_true_source (self s : IncomePredictor.state)
      (income_data : list IncomeRecord) :
  IncomePredictor.train self income_data = Return true s ->
  Frame.has_column i_source income_data = true
  /\ Py.truthy income_data = true.
Proof.
  unfold IncomePredictor.train, IncomePredictor._prepare_data.
  destruct (Py.truthy income_data); [|discriminate]. simpl negb. cbv iota.
  destruct (Frame.has_column i_source income_data); [auto|].
  simpl. discriminate.
Qed.

Lemma source_predictions_keys (m : fitted) (v : OneHotEncoder.vocabulary)
      (now_month : Z) (income_data : list IncomeRecord) :
  Frame.has_column i_source income_data = true ->
  Py.truthy income_data = true ->
  Py.keys (IncomePredictor.source_predictions m v now_month income_data)
  = Frame.unique label_eqb (IncomePredictor.source_column income_data).
Proof.
  intros Hs Ne. unfold IncomePredictor.source_predictions.
  assert (P : IncomePredictor.prediction_sources income_data
              = Frame.unique label_eqb
                             (IncomePredictor.source_column income_data)).
  { unfold IncomePredictor.prediction_sources. rewrite Hs.
    destruct income_data as [|r rows]; [discriminate|]. reflexivity. }
  rewrite P.
  rewrite (fold_set_distinct
             (fun source =>
                Py.max 0 (predict_row
                            m (OneHotEncoder.transform v source
                               ++ [inject_Z (month_after now_month)])))).
  - unfold Py.keys. simpl. rewrite map_map. apply map_id.
  - exact (@unique_distinct label label_key _).
  - intros k _ [].
Qed.
End IncomeSources.

(** X16.  [IncomePredictor.predict] returns total 0 and no sources for
    fewer than two records, whatever the instance.  When an untrained
    instance returns anything else, the sources of the result are exactly
    the distinct sources of the supplied records, in order of first
    appearance: the built-in list of seven default sources is never used
    by an instance that trains on the data it is asked about. *)
Theorem income_sources_come_from_data {LR : Regression}
        (self : IncomePredictor.state) (now_month : Z)
        (income_data : list IncomeRecord) :
  ((List.length income_data < 2)%nat ->
   IncomePredictor.predict self now_month income_data
   = Return IncomePredictor.nothing self)
  /\ (forall r s,
         IncomePredictor.is_trained self = false ->
         IncomePredictor.predict self now_month income_data = Return r s ->
         r = IncomePredictor.nothing
         \/ (IncomePredictor.is_trained s = true
             /\ Frame.has_column i_source income_data = true
             /\ Py.keys (IncomePredictor.by_source r)
                = Frame.unique label_eqb
                               (IncomePredictor.source_column income_data))).
Proof.
  split.
  - intro L. unfold IncomePredictor.predict. apply Nat.ltb_lt in L.
    now rewrite L, orb_true_r.
  - intros r s U. unfold IncomePredictor.predict.
    destruct (negb (Py.truthy income_data)
              || (List.length income_data <? 2)%nat);
      [intros [= <- <-]; now left|].
    unfold IncomePredictor.ensure_trained. rewrite U.
    destruct (IncomePredictor.train self income_data) as [b s0|s0] eqn:Tr;
      [|discriminate].
    destruct b.
    + pose proof (income_train_true _ _ _ Tr) as (T & _).
      pose proof (income_train_true_source _ _ _ Tr) as (Hs & Ne).
      rewrite T. simpl negb. cbv iota.
      destruct (IncomePredictor.model s0) as [m|]; [|discriminate].
      destruct (IncomePredictor.encoder s0) as [v|]; [|discriminate].
      destruct (IncomePredictor.forecast m v now_month income_data)
        as [p|] eqn:F; [|discriminate].
      intros [= <- <-]. right.
      pose proof (income_forecast_cases _ _ _ _ _ F) as (B & _).
      rewrite B. split; [exact T|]. split; [exact Hs|].
      now apply source_predictions_keys.
    + rewrite (income_train_false _ _ _ Tr). simpl.
      intros [= <- <-]. now left.
Qed.

(** ** BudgetOptimizer: the allocation in closed form *)






(** ** SavingsPredictor: the sign of the monthly savings *)

Lemma monthly_savings_form (self : SavingsPredictor.state)
      (income_data : list IncomeRecord) (expense_data : list ExpenseRecord) :
  Py.truthy income_data = true ->
  Py.truthy expense_data = true ->
  Frame.has_column i_amount income_data = true ->
  Frame.has_column e_amount expense_data = true ->
  exists n : Z,
    (1 <= n)%Z
    /\ fst (SavingsPredictor.calculate_monthly_savings
              self income_data expense_data)
       = (Frame.sum i_amount income_data - Frame.sum e_amount expense_data)
         / inject_Z n.
Proof.
  intros Ti Te Ai Ae. unfold SavingsPredictor.calculate_monthly_savings.
  rewrite Ti, Te, Ai, Ae. simpl negb. simpl orb. cbv iota.
  assert (M : forall n, (1 <= Py.max1 n)%Z)
    by (intro n; rewrite max1_max; lia).
  destruct (Frame.has_column i_date income_data).
  - destruct (Date.to_datetime _) as [dates|].
    + destruct (Date.min dates), (Date.max dates); simpl; eexists;
        (split; [|reflexivity]); try apply M; lia.
    + simpl. eexists. split; [apply M | reflexivity].
  - simpl. eexists. split; [apply M | reflexivity].
Qed.

(** X18.  For non-empty income and expense data with amounts, the monthly
    savings [calculate_monthly_savings] returns have the sign of total
    income minus total expenses (positive exactly when income exceeds
    expenses, zero exactly when they are equal) and are never larger in
    size than that difference, whichever divisor applies. *)
Theorem monthly_savings_sign (self : SavingsPredictor.state)
        (income_data : list IncomeRecord) (expense_data : list ExpenseRecord) :
  Py.truthy income_data = true ->
  Py.truthy expense_data = true ->
  Frame.has_column i_amount income_data = true ->
  Frame.has_column e_amount expense_data = true ->
  let total_savings :=
    Frame.sum i_amount income_data - Frame.sum e_amount expense_data in
  let v := fst (SavingsPredictor.calculate_monthly_savings
                  self income_data expense_data) in
  (0 < v <-> 0 < total_savings)
  /\ (v == 0 <-> total_savings == 0)
  /\ (0 <= total_savings -> v <= total_savings)
  /\ (total_savings <= 0 -> total_savings <= v).
Proof.
  intros Ti Te Ai Ae total_savings v.
  destruct (monthly_savings_form self income_data expense_data Ti Te Ai Ae)
    as (n & N & E).
  fold total_savings in E. fold v in E. clearbody v total_savings.
  assert (Pos : 0 < inject_Z n) by (rewrite <- (Zlt_Qlt 0); lia).
  assert (One : 1 <= inject_Z n) by (rewrite <- (Zle_Qle 1); lia).
  assert (Mul : v * inject_Z n == total_savings).
  { rewrite E. field. lra. }
  clear E. set (d := inject_Z n) in *. clearbody d.
  repeat split; intros; nra.
Qed.

(** The worked example: income 6000, expenses 1000. *)
Lemma monthly_savings_sign_witness :
  let total_savings :=
    Frame.sum i_amount Sample.salaries_jan_mar
    - Frame.sum e_amount Sample.one_expense in
  let v := fst (SavingsPredictor.calculate_monthly_savings
                  SavingsPredictor.init
                  Sample.salaries_jan_mar Sample.one_expense) in
  (0 < v <-> 0 < total_savings)
  /\ (v == 0 <-> total_savings == 0)
  /\ (0 <= total_savings -> v <= total_savings)
  /\ (total_savings <= 0 -> total_savings <= v).
Proof.
  apply (monthly_savings_sign
           SavingsPredictor.init Sample.salaries_jan_mar Sample.one_expense);
    reflexivity.
Defined.
